(** * Quality-metrics aggregation engine (MetricsService)

    A shallow embedding of the [MetricsService] class of
    [src/agent-patcher.js] (lines 1019-1526) and the properties of its
    calculators, result accessor and time-boxed cache.

    Conventions of the embedding.
    - A JavaScript number that the service computes with is an integer
      here ([Z]).  An average that the source rounds with [Math.round]
      is the exact quotient rounded half up.  A percentage
      [Math.round((a / b) * 100)] is a [roundPercent] of the class
      [PercentRounding]: any rounding to a nearest integer, of which
      the double computation is one and the exact quotient rounded
      half up another.
    - An instant ([Date], ISO string, [Date.now()]) is its number of
      milliseconds since the epoch; [Date.now()] is passed in as [now].
    - A field that may be missing from a record is an [option].
    - A call that may throw returns an [Outcome]. *)

From Stdlib Require Import ZArith List Lia Ascii String Sorted.
From stdpp Require Import base option list strings pretty gmap.

Local Open Scope Z_scope.

(** ** JavaScript primitives used by the service *)

Module Js.

(** [Math.round (a / b)] for an integer [a] and a positive [b]:
    the nearest integer, a tie going up. *)
Definition roundDiv (a b : Z) : Z := (2 * a + b) / (2 * b).

(** [Math.round ((h/2 / total) * 100)]: a percentage whose numerator
    [h] counts halves, so that [successes + warnings * 0.5] is
    [2 * successes + warnings] halves. *)
Definition roundPercent (halves total : Z) : Z := roundDiv (100 * halves) (2 * total).

(** Truthiness of a string-valued field: [undefined], [null] and the
    empty string are falsy. *)
Definition truthyStr (s : option string) : bool :=
  match s with
  | Some s => negb (String.eqb s "")
  | None => false
  end.

(** Truthiness of a number-valued field: [undefined] and [0] are falsy. *)
Definition truthyNum (n : option Z) : bool :=
  match n with
  | Some n => negb (n =? 0)
  | None => false
  end.

(** [a || b] on optional strings. *)
Definition orStr (a b : option string) : option string :=
  if truthyStr a then a else b.

(** [a || b] on optional numbers. *)
Definition orNum (a b : option Z) : option Z :=
  if truthyNum a then a else b.

(** [xs.filter(Boolean)] on a list of optional numbers. *)
Fixpoint filterBoolean (xs : list (option Z)) : list Z :=
  match xs with
  | [] => []
  | Some x :: xs' => if x =? 0 then filterBoolean xs' else x :: filterBoolean xs'
  | None :: xs' => filterBoolean xs'
  end.

(** [xs.slice(-n)]: the last [n] elements; [slice(-0)] is [slice(0)],
    the whole array. *)
Definition sliceLast {A} (n : nat) (xs : list A) : list A :=
  match n with
  | O => xs
  | _ => drop (length xs - n)%nat xs
  end.

(** [xs.sort(cmp)]: a stable sort; [cmp a b <= 0] keeps [a] before [b]. *)
Fixpoint insertBy {A} (cmp : A -> A -> Z) (x : A) (xs : list A) : list A :=
  match xs with
  | [] => [x]
  | y :: ys => if cmp x y <=? 0 then x :: y :: ys else y :: insertBy cmp x ys
  end.

Definition sortBy {A} (cmp : A -> A -> Z) (xs : list A) : list A :=
  foldr (insertBy cmp) [] xs.

(** [xs.findIndex(p)]: the first index whose element satisfies [p],
    and [-1] when there is none. *)
Fixpoint findIndexFrom {A} (p : A -> bool) (i : Z) (xs : list A) : Z :=
  match xs with
  | [] => -1
  | x :: xs' => if p x then i else findIndexFrom p (i + 1) xs'
  end.

Definition findIndex {A} (p : A -> bool) (xs : list A) : Z := findIndexFrom p 0 xs.

(** [xs.reduce((a, b) => a + b, 0)]. *)
Definition sum (xs : list Z) : Z := foldl Z.add 0 xs.

(** [Math.max(...xs)] and [Math.min(...xs)] on a non-empty list. *)
Definition maxOf (x : Z) (xs : list Z) : Z := foldl Z.max x xs.
Definition minOf (x : Z) (xs : list Z) : Z := foldl Z.min x xs.

(** [c.toLowerCase()] on one ASCII character. *)
Definition lowerAscii (c : ascii) : ascii :=
  let n := nat_of_ascii c in
  if ((65 <=? n)%nat && (n <=? 90)%nat)%bool then ascii_of_nat (n + 32) else c.

Fixpoint toLowerCase (s : string) : string :=
  match s with
  | EmptyString => EmptyString
  | String c s' => String (lowerAscii c) (toLowerCase s')
  end.

(** [s.includes(sub)]. *)
Fixpoint includes (s sub : string) : bool :=
  if String.prefix sub s then true
  else match s with
       | EmptyString => false
       | String _ s' => includes s' sub
       end.

(** [s.endsWith(suffix)]. *)
Definition endsWith (s suffix : string) : bool :=
  let n := String.length s in
  let k := String.length suffix in
  ((k <=? n)%nat && String.eqb (String.substring (n - k) k s) suffix)%bool.

End Js.

(** ** Rounding of percentages *)

(** [Math.round((h/2 / total) * 100)], the expression behind every
    rate and score of the service.  In double arithmetic the quotient
    and the product are each rounded to 53 bits before [Math.round],
    so that a value lying exactly on a tie (29 / 200 * 100 = 14.5) may
    go to either neighbour.  What the expression guarantees, for every
    total that the length of an array can take, is a nearest integer:
    that is the law of this class.  [Js.roundPercent], which rounds
    the exact quotient half up, is one such rounding. *)
Class PercentRounding := {
  roundPercent : Z -> Z -> Z;
  roundPercent_nearest :
    forall halves total : Z,
      0 < total ->
      Z.abs (2 * total * roundPercent halves total - 100 * halves) <= total
}.

(** ** Errors *)

(** The result of a call that may throw: the value it returns or the
    message of the error it throws. *)
Inductive Outcome (A : Type) : Type :=
| Returned (a : A)
| Thrown (message : string).
Arguments Returned {A} a.
Arguments Thrown {A} message.

Definition bindOutcome {A B} (o : Outcome A) (k : A -> Outcome B) : Outcome B :=
  match o with
  | Returned a => k a
  | Thrown m => Thrown m
  end.

Notation "'await' x <- e ; k" := (bindOutcome e (fun x => k))
  (at level 10, x name, e at level 100, k at level 200).

(** [try { body } catch (error) { handler(error.message) }]. *)
Definition tryCatch {A} (body : Outcome A) (handler : string -> Outcome A) : Outcome A :=
  match body with
  | Returned a => Returned a
  | Thrown m => handler m
  end.

(** ** Data model *)

Definition msPerDay : Z := 24 * 60 * 60 * 1000.

Record Pattern := {
  patName : option string;
  patType : option string;
  patScope : option string
}.

(** One validation-result record, as read from a JSON file. *)
Record ValidationResult := {
  project : option string;
  timestamp : option Z;
  status : string;
  executionTime : option Z;
  testCount : option Z;
  totalTests : option Z;
  patterns : list Pattern
}.

Inductive Trend := stable | improving | declining.

Record Breakdown := {
  successful : Z;
  failed : Z;
  warnings : Z
}.

(** The object that [calculateOverviewMetrics] returns; the key
    [breakdown] is present only on one of its two return paths. *)
Record OverviewMetrics := {
  totalValidations : Z;
  successRate : Z;
  failureRate : Z;
  warningRate : Z;
  qualityScore : Z;
  trend : Trend;
  breakdown : option Breakdown
}.

(** One element of the array that [calculateTrendMetrics] returns:
    [period] is the day of [periodEnd] (the date part of its ISO form),
    [rangeStart] and [rangeEnd] are [dateRange.start] and [dateRange.end]. *)
Record TrendPoint := {
  period : Z;
  periodMetrics : OverviewMetrics;
  rangeStart : Z;
  rangeEnd : Z
}.

(** ** Overview calculator *)

(** [new Date(r.timestamp) >= d]; an absent timestamp is an invalid
    date, for which every comparison is false. *)
Definition dateGe (r : ValidationResult) (d : Z) : bool :=
  match timestamp r with
  | Some t => d <=? t
  | None => false
  end.

Definition dateLt (r : ValidationResult) (d : Z) : bool :=
  match timestamp r with
  | Some t => t <? d
  | None => false
  end.

Definition countStatus (s : string) (results : list ValidationResult) : Z :=
  Z.of_nat (length (filter (fun r => status r = s) results)).

Definition calculateTrend (now : Z) (results : list ValidationResult) (days : Z) : Trend :=
  if Z.of_nat (length results) <? 10 then stable
  else
    let cutoff := now - days * msPerDay in
    let recent := filter (fun r => dateGe r cutoff = true) results in
    let previous :=
      Js.sliceLast (length recent) (filter (fun r => dateLt r cutoff = true) results) in
    let rl := Z.of_nat (length recent) in
    let pl := Z.of_nat (length previous) in
    if ((rl <? 5) || (pl <? 5))%bool then stable
    else
      let rs := countStatus "success" recent in
      let ps := countStatus "success" previous in
      (* rs/rl - ps/pl against 0.05 and -0.05, cleared of denominators *)
      let difference20 := 20 * (rs * pl - ps * rl) in
      if rl * pl <? difference20 then improving
      else if difference20 <? - (rl * pl) then declining
      else stable.

Definition calculateOverviewMetrics `{PercentRounding} (now : Z)
    (results : list ValidationResult) : OverviewMetrics :=
  let total := Z.of_nat (length results) in
  if total =? 0 then
    {| totalValidations := 0; successRate := 0; failureRate := 0; warningRate := 0;
       qualityScore := 0; trend := stable; breakdown := None |}
  else
    let successful := countStatus "success" results in
    let failed := countStatus "failure" results in
    let warnings := countStatus "warning" results in
    {| totalValidations := total;
       successRate := roundPercent (2 * successful) total;
       failureRate := roundPercent (2 * failed) total;
       warningRate := roundPercent (2 * warnings) total;
       qualityScore := roundPercent (2 * successful + warnings) total;
       trend := calculateTrend now results 7;
       breakdown := Some {| successful := successful; failed := failed;
                            warnings := warnings |} |}.

(** ** Trend bucketizer *)

(** The loop [for (let i = timeframe; i >= 0; i -= daysPerPeriod)]:
    the values that [i] takes, in the order of the iterations.  [fuel]
    bounds the number of iterations. *)
Fixpoint periodOffsets (fuel : nat) (i daysPerPeriod : Z) : list Z :=
  match fuel with
  | O => []
  | S fuel' =>
      if 0 <=? i then i :: periodOffsets fuel' (i - daysPerPeriod) daysPerPeriod
      else []
  end.

Definition trendPoint `{PercentRounding} (now : Z) (results : list ValidationResult)
    (daysPerPeriod i : Z) : TrendPoint :=
  let periodEnd := now - i * msPerDay in
  let periodStart := periodEnd - daysPerPeriod * msPerDay in
  let periodResults :=
    filter (fun r => (dateGe r periodStart && dateLt r periodEnd)%bool = true) results in
  {| period := periodEnd / msPerDay;
     periodMetrics := calculateOverviewMetrics now periodResults;
     rangeStart := periodStart;
     rangeEnd := periodEnd |}.

Definition calculateTrendMetrics `{PercentRounding} (now : Z)
    (results : list ValidationResult) (timeframe : Z) : list TrendPoint :=
  let daysPerPeriod := Z.max 1 (timeframe / 10) in
  map (trendPoint now results daysPerPeriod)
      (periodOffsets (S (Z.to_nat timeframe)) timeframe daysPerPeriod).

(** ** Performance calculator *)

(** [throughput] is held in hundredths: the source rounds it to two
    decimals with [Math.round(x * 100) / 100]. *)
Record PerformanceMetrics := {
  averageExecutionTime : Z;
  medianExecutionTime : Z;
  maxExecutionTime : Z;
  minExecutionTime : Z;
  averageTestCount : Z;
  totalTestsExecuted : Z;
  throughput : Z
}.

(** [results.map(r => r.executionTime).filter(Boolean)] *)
Definition executionTimesOf (results : list ValidationResult) : list Z :=
  Js.filterBoolean (map executionTime results).

(** [results.map(r => r.testCount || r.totalTests).filter(Boolean)] *)
Definition testCountsOf (results : list ValidationResult) : list Z :=
  Js.filterBoolean (map (fun r => Js.orNum (testCount r) (totalTests r)) results).

Definition medianOf (executionTimes : list Z) : Z :=
  let sorted := Js.sortBy (fun a b => a - b) executionTimes in
  let mid := (length sorted / 2)%nat in
  if (length sorted mod 2 =? 0)%nat
  then Js.roundDiv (default 0 (sorted !! (mid - 1)%nat) + default 0 (sorted !! mid)) 2
  else default 0 (sorted !! mid).

Definition throughputOf (results : list ValidationResult) : Z :=
  if 1 <? Z.of_nat (length results) then
    match head results, last results with
    | Some first, Some final =>
        match timestamp first, timestamp final with
        | Some t0, Some t1 =>
            let timeSpan := t1 - t0 in
            (* hours = timeSpan / 3 600 000 > 0 *)
            if 0 <? timeSpan
            then Js.roundDiv (Z.of_nat (length results) * 100 * (1000 * 60 * 60)) timeSpan
            else 0
        | _, _ => 0
        end
    | _, _ => 0
    end
  else 0.

Definition calculatePerformanceMetrics (results : list ValidationResult)
  : PerformanceMetrics :=
  let executionTimes := executionTimesOf results in
  let testCounts := testCountsOf results in
  let nonEmpty := 0 <? Z.of_nat (length executionTimes) in
  {| averageExecutionTime :=
       if nonEmpty
       then Js.roundDiv (Js.sum executionTimes) (Z.of_nat (length executionTimes))
       else 0;
     medianExecutionTime := if nonEmpty then medianOf executionTimes else 0;
     maxExecutionTime :=
       match executionTimes with x :: xs => Js.maxOf x xs | [] => 0 end;
     minExecutionTime :=
       match executionTimes with x :: xs => Js.minOf x xs | [] => 0 end;
     averageTestCount :=
       if 0 <? Z.of_nat (length testCounts)
       then Js.roundDiv (Js.sum testCounts) (Z.of_nat (length testCounts))
       else 0;
     totalTestsExecuted := Js.sum testCounts;
     throughput := throughputOf results |}.

(** ** Health calculator *)

Inductive Overall := unknown | poor | fair | good | excellent.

Inductive IndicatorType := indWarning | indSuccess | indInfo.

Record Indicator := {
  indType : IndicatorType;
  indMessage : string
}.

(** [lastUpdate] is absent from the object returned for no records. *)
Record HealthMetrics := {
  overall : Overall;
  score : Z;
  indicators : list Indicator;
  recommendations : list string;
  lastUpdate : option Z
}.

(** The set [patternsUsed]: [p.name || p.type] of every pattern of the
    records given. *)
Definition patternsUsedOf (recentResults : list ValidationResult)
  : gset (option string) :=
  list_to_set
    (flat_map (fun r => map (fun p => Js.orStr (patName p) (patType p)) (patterns r))
              recentResults).

(** The running state of the health pass: [score], [indicators] and
    [recommendations], each rule appending to the arrays. *)
Record HealthAcc := {
  accScore : Z;
  accIndicators : list Indicator;
  accRecommendations : list string
}.

Definition deduct (acc : HealthAcc) (points : Z) (i : Indicator) (advice : string)
  : HealthAcc :=
  {| accScore := accScore acc - points;
     accIndicators := accIndicators acc ++ [i];
     accRecommendations := accRecommendations acc ++ [advice] |}.

Definition praise (acc : HealthAcc) (i : Indicator) : HealthAcc :=
  {| accScore := accScore acc;
     accIndicators := accIndicators acc ++ [i];
     accRecommendations := accRecommendations acc |}.

Definition successRateRule `{PercentRounding} (results : list ValidationResult)
    (acc : HealthAcc)
  : HealthAcc :=
  let successRate :=
    roundPercent (2 * countStatus "success" results) (Z.of_nat (length results)) in
  if successRate <? 70 then
    deduct acc (70 - successRate)
      {| indType := indWarning;
         indMessage := "Low success rate: " +:+ pretty successRate +:+ "%" |}
      "Review failing validation patterns and improve test quality"
  else if 95 <=? successRate then
    praise acc
      {| indType := indSuccess;
         indMessage := "Excellent success rate: " +:+ pretty successRate +:+ "%" |}
  else acc.

Definition trendRule (now : Z) (results : list ValidationResult) (acc : HealthAcc)
  : HealthAcc :=
  match calculateTrend now results 7 with
  | declining =>
      deduct acc 15
        {| indType := indWarning; indMessage := "Quality trend is declining" |}
        "Investigate recent changes that may be affecting validation quality"
  | improving =>
      praise acc {| indType := indSuccess; indMessage := "Quality trend is improving" |}
  | stable => acc
  end.

Definition diversityRule (results : list ValidationResult) (acc : HealthAcc)
  : HealthAcc :=
  let recentResults := Js.sliceLast 20 results in
  if ((Z.of_nat (size (patternsUsedOf recentResults)) <? 3)
      && (10 <? Z.of_nat (length results)))%bool
  then
    deduct acc 5
      {| indType := indInfo; indMessage := "Limited pattern diversity detected" |}
      "Consider expanding pattern library to improve validation coverage"
  else acc.

Definition performanceRule (results : list ValidationResult) (acc : HealthAcc)
  : HealthAcc :=
  let executionTimes := executionTimesOf results in
  let n := Z.of_nat (length executionTimes) in
  (* avgTime = sum / n > 30000 *)
  if ((0 <? n) && (30000 * n <? Js.sum executionTimes))%bool
  then
    deduct acc 10
      {| indType := indWarning; indMessage := "Slow average validation time" |}
      "Optimize validation processes to improve performance"
  else acc.

Definition gradeOf (score : Z) : Overall :=
  if score <? 60 then poor
  else if score <? 75 then fair
  else if score <? 90 then good
  else excellent.

Definition calculateHealthMetrics `{PercentRounding} (now : Z)
    (results : list ValidationResult)
  : HealthMetrics :=
  if Z.of_nat (length results) =? 0 then
    {| overall := unknown; score := 0; indicators := [];
       recommendations := ["No validation data available"];
       lastUpdate := None |}
  else
    let acc0 := {| accScore := 100; accIndicators := []; accRecommendations := [] |} in
    let acc :=
      performanceRule results
        (diversityRule results (trendRule now results (successRateRule results acc0))) in
    {| overall := gradeOf (accScore acc);
       score := Z.max 0 (accScore acc);
       indicators := accIndicators acc;
       recommendations := accRecommendations acc;
       lastUpdate := Some now |}.

(** ** Result accessor *)

(** One entry of the validation-results directory: its name, what
    [fs.readJson] gives for it and what [fs.stat] gives for its
    modification time.  A file whose JSON is not a record makes the
    body of the loop throw as a failed read does. *)
Record FileEntry := {
  fileName : string;
  readJson : Outcome ValidationResult;
  statMtime : Outcome Z
}.

(** The backing store as the service sees it: the outcome of
    [fs.ensureDir] and of [fs.readdir] on the validation-results
    directory. *)
Record Store := {
  ensureDir : Outcome unit;
  readdir : Outcome (list FileEntry)
}.

(** [if (!data.timestamp) data.timestamp = fileStats.mtime] *)
Definition ensureTimestamp (data : ValidationResult) (mtime : Z) : ValidationResult :=
  if Js.truthyNum (timestamp data) then data
  else {| project := project data; timestamp := Some mtime; status := status data;
          executionTime := executionTime data; testCount := testCount data;
          totalTests := totalTests data; patterns := patterns data |}.

(** The two [continue] filters of the loop. *)
Definition beforeCutoff (cutoffDate : option Z) (data : ValidationResult) : bool :=
  match cutoffDate with
  | Some cutoff => dateLt data cutoff
  | None => false
  end.

Definition otherProject (projectName : option string) (data : ValidationResult) : bool :=
  match projectName with
  | Some name =>
      (Js.truthyStr projectName
       && match project data with
          | Some p =>
              (negb (Js.truthyStr (project data))
               || negb (Js.includes (Js.toLowerCase p) (Js.toLowerCase name)))%bool
          | None => true
          end)%bool
  | None => false
  end.

(** The body of the loop over the JSON files: the records pushed by one
    iteration (none when the iteration continues or its error is
    caught and logged). *)
Definition loadFile (projectName : option string) (cutoffDate : option Z)
    (file : FileEntry) : list ValidationResult :=
  match
    tryCatch
      (await data0 <- readJson file;
       await mtime <- statMtime file;
       let data := ensureTimestamp data0 mtime in
       if beforeCutoff cutoffDate data then Returned []
       else if otherProject projectName data then Returned []
       else Returned [data])
      (fun _ => Returned [])
  with
  | Returned pushed => pushed
  | Thrown _ => []
  end.

(** [new Date(a.timestamp) - new Date(b.timestamp)]; a comparator that
    returns [NaN] counts as [0]. *)
Definition byTimestamp (a b : ValidationResult) : Z :=
  match timestamp a, timestamp b with
  | Some ta, Some tb => ta - tb
  | _, _ => 0
  end.

Definition loadValidationResults (store : Store) (projectName : option string)
    (cutoffDate : option Z) : Outcome (list ValidationResult) :=
  await _ <- ensureDir store;
  await files <- readdir store;
  let jsonFiles := List.filter (fun f => Js.endsWith (fileName f) ".json") files in
  let results := flat_map (loadFile projectName cutoffDate) jsonFiles in
  Returned (Js.sortBy byTimestamp results).

(** ** Comparative calculator *)

(** One element of [comparisons]: the overview of the project spread
    into the object, next to the fields listed here. *)
Record ProjectComparison := {
  cmpProject : string;
  isCurrent : bool;
  cmpOverview : OverviewMetrics;
  cmpAverageExecutionTime : Z;
  cmpTotalTestsExecuted : Z;
  lastValidation : option Z
}.

Record IndustryAverage := {
  avgQualityScore : Z;
  avgSuccessRate : Z
}.

Record ComparativeMetrics := {
  projects : list ProjectComparison;
  totalProjects : Z;
  currentProjectRank : option Z;
  industryAverage : IndustryAverage
}.

(** [projectGroups]: a [Map] from project name to its records, in the
    order in which the names were first seen. *)
Fixpoint addToGroup (name : string) (r : ValidationResult)
    (groups : list (string * list ValidationResult))
  : list (string * list ValidationResult) :=
  match groups with
  | [] => [(name, [r])]
  | (p, rs) :: rest =>
      if String.eqb p name then (p, rs ++ [r]) :: rest
      else (p, rs) :: addToGroup name r rest
  end.

(** [result.project || 'unknown'] *)
Definition projectOf (r : ValidationResult) : string :=
  match Js.orStr (project r) (Some "unknown") with
  | Some p => p
  | None => "unknown"
  end.

Definition groupByProject (allResults : list ValidationResult)
  : list (string * list ValidationResult) :=
  foldl (fun groups r => addToGroup (projectOf r) r groups) [] allResults.

(** [projectName === currentProject] *)
Definition isProject (currentProject : option string) (name : string) : bool :=
  match currentProject with
  | Some c => String.eqb name c
  | None => false
  end.

Definition compareProject `{PercentRounding} (now : Z) (currentProject : option string)
    (group : string * list ValidationResult) : list ProjectComparison :=
  let '(projectName, results) := group in
  if Z.of_nat (length results) <? 5 then []
  else
    let overview := calculateOverviewMetrics now results in
    let performance := calculatePerformanceMetrics results in
    [ {| cmpProject := projectName;
         isCurrent := isProject currentProject projectName;
         cmpOverview := overview;
         cmpAverageExecutionTime := averageExecutionTime performance;
         cmpTotalTestsExecuted := totalTestsExecuted performance;
         lastValidation := match last results with
                           | Some r => timestamp r
                           | None => None
                           end |} ].

(** [(a, b) => b.qualityScore - a.qualityScore] *)
Definition byQualityDesc (a b : ProjectComparison) : Z :=
  qualityScore (cmpOverview b) - qualityScore (cmpOverview a).

Definition rankedProjects `{PercentRounding} (now : Z) (currentProject : option string)
    (allResults : list ValidationResult) : list ProjectComparison :=
  Js.sortBy byQualityDesc
    (flat_map (compareProject now currentProject) (groupByProject allResults)).

(** [currentProject ? comparisons.findIndex(...) + 1 : null] *)
Definition currentRankOf (currentProject : option string)
    (comparisons : list ProjectComparison) : option Z :=
  if Js.truthyStr currentProject
  then Some (Js.findIndex (fun c => isProject currentProject (cmpProject c)) comparisons + 1)
  else None.

Definition averageOf (f : ProjectComparison -> Z) (comparisons : list ProjectComparison)
  : Z :=
  if 0 <? Z.of_nat (length comparisons)
  then Js.roundDiv (Js.sum (map f comparisons)) (Z.of_nat (length comparisons))
  else 0.

Definition zeroedComparative : ComparativeMetrics :=
  {| projects := []; totalProjects := 0; currentProjectRank := None;
     industryAverage := {| avgQualityScore := 0; avgSuccessRate := 0 |} |}.

(** [currentResults] is a parameter of the source function that its
    body never reads. *)
Definition calculateComparativeMetrics `{PercentRounding} (now : Z) (store : Store)
    (currentResults : list ValidationResult) (currentProject : option string)
  : Outcome ComparativeMetrics :=
  tryCatch
    (await allResults <- loadValidationResults store None None;
     let comparisons := rankedProjects now currentProject allResults in
     Returned
       {| projects := comparisons;
          totalProjects := Z.of_nat (length comparisons);
          currentProjectRank := currentRankOf currentProject comparisons;
          industryAverage :=
            {| avgQualityScore :=
                 averageOf (fun p => qualityScore (cmpOverview p)) comparisons;
               avgSuccessRate :=
                 averageOf (fun p => successRate (cmpOverview p)) comparisons |} |})
    (fun _ => Returned zeroedComparative).

(** ** Metrics orchestrator and cache *)

Section Orchestrator.

(** The pattern-effectiveness calculator is a parameter of this
    section: [calculatePatternMetrics] reads the records and the
    pattern-library files and catches its own read errors; nothing
    below looks into its result. *)
Context `{PercentRounding}.
Variable PatternMetrics : Type.
Variable calculatePatternMetrics : Store -> list ValidationResult -> PatternMetrics.

Record MetricsSnapshot := {
  overview : OverviewMetrics;
  trends : list TrendPoint;
  patternMetrics : PatternMetrics;
  performance : PerformanceMetrics;
  health : HealthMetrics;
  comparative : ComparativeMetrics;
  snapshotTimestamp : Z;
  snapshotProject : option string;
  timeframeDays : Z
}.

(** A value of [metricsCache]: [{ data, timestamp }]. *)
Record CacheEntry := {
  data : MetricsSnapshot;
  computedAt : Z
}.

(** The fields of a [MetricsService] that the calculation reads or
    writes. *)
Record MetricsService := {
  metricsCache : gmap string CacheEntry;
  cacheTimeout : Z
}.

(** The constructor. *)
Definition newMetricsService : MetricsService :=
  {| metricsCache := ∅; cacheTimeout := 5 * 60 * 1000 |}.

(** [`quality-${projectName || 'global'}-${timeframe}`] *)
Definition cacheKeyOf (projectName : option string) (timeframe : Z) : string :=
  "quality-" +:+ default "global" (Js.orStr projectName (Some "global"))
    +:+ "-" +:+ pretty timeframe.

(** The cache check at the head of [calculateQualityMetrics]: the
    stored snapshot when the method returns it. *)
Definition cachedSnapshot (this : MetricsService) (now : Z) (cacheKey : string)
  : option MetricsSnapshot :=
  match metricsCache this !! cacheKey with
  | Some cached =>
      if now - computedAt cached <? cacheTimeout this then Some (data cached) else None
  | None => None
  end.

(** The [try] block up to the construction of [metrics]. *)
Definition computeSnapshot (now : Z) (store : Store) (projectName : option string)
    (timeframe : Z) : Outcome MetricsSnapshot :=
  let cutoffDate := now - timeframe * msPerDay in
  await validationResults <- loadValidationResults store projectName (Some cutoffDate);
  await comparativeMetrics <-
    calculateComparativeMetrics now store validationResults projectName;
  Returned
    {| overview := calculateOverviewMetrics now validationResults;
       trends := calculateTrendMetrics now validationResults timeframe;
       patternMetrics := calculatePatternMetrics store validationResults;
       performance := calculatePerformanceMetrics validationResults;
       health := calculateHealthMetrics now validationResults;
       comparative := comparativeMetrics;
       snapshotTimestamp := now;
       snapshotProject := projectName;
       timeframeDays := timeframe |}.

(** [calculateQualityMetrics]: what the call returns or throws, and
    the service after the call. *)
Definition calculateQualityMetrics (this : MetricsService) (now : Z) (store : Store)
    (projectName : option string) (timeframe : Z)
  : Outcome MetricsSnapshot * MetricsService :=
  let cacheKey := cacheKeyOf projectName timeframe in
  match cachedSnapshot this now cacheKey with
  | Some snapshot => (Returned snapshot, this)
  | None =>
      match computeSnapshot now store projectName timeframe with
      | Returned metrics =>
          (Returned metrics,
           {| metricsCache :=
                <[cacheKey := {| data := metrics; computedAt := now |}]>
                  (metricsCache this);
              cacheTimeout := cacheTimeout this |})
      | Thrown message =>
          (Thrown ("Failed to calculate quality metrics: " +:+ message), this)
      end
  end.

Definition clearCache (this : MetricsService) : MetricsService :=
  {| metricsCache := ∅; cacheTimeout := cacheTimeout this |}.


End Orchestrator.

Arguments overview {PatternMetrics} _.
Arguments trends {PatternMetrics} _.
Arguments patternMetrics {PatternMetrics} _.
Arguments performance {PatternMetrics} _.
Arguments health {PatternMetrics} _.
Arguments comparative {PatternMetrics} _.
Arguments snapshotTimestamp {PatternMetrics} _.
Arguments snapshotProject {PatternMetrics} _.
Arguments timeframeDays {PatternMetrics} _.
Arguments data {PatternMetrics} _.
Arguments computedAt {PatternMetrics} _.
Arguments metricsCache {PatternMetrics} _.
Arguments cacheTimeout {PatternMetrics} _.
Arguments newMetricsService {PatternMetrics}.
Arguments cachedSnapshot {PatternMetrics} this now cacheKey.
Arguments computeSnapshot
    {_ PatternMetrics} calculatePatternMetrics now store projectName timeframe.
Arguments calculateQualityMetrics
    {_ PatternMetrics} calculatePatternMetrics this now store projectName timeframe.
Arguments clearCache {PatternMetrics} this.

(** * Properties *)

(** ** Rounding *)

(** Rounding the exact quotient half up gives a nearest integer. *)
Lemma exact_roundPercent_nearest (halves total : Z) :
  0 < total ->
  Z.abs (2 * total * Js.roundPercent halves total - 100 * halves) <= total.
Proof.
  intros Ht. unfold Js.roundPercent, Js.roundDiv.
  replace (2 * (100 * halves) + 2 * total) with (200 * halves + 2 * total) by lia.
  replace (2 * (2 * total)) with (4 * total) by lia.
  pose proof (Z.div_mod (200 * halves + 2 * total) (4 * total)) as Hdm.
  pose proof (Z.mod_pos_bound (200 * halves + 2 * total) (4 * total)) as Hmod.
  lia.
Qed.

(** A rounding to a nearest integer is monotone in the numerator,
    whichever way it rounds the ties. *)
Lemma roundPercent_mono `{PercentRounding} (h1 h2 total : Z) :
  0 < total -> h1 <= h2 -> roundPercent h1 total <= roundPercent h2 total.
Proof.
  intros Ht Hle.
  destruct (Z.eq_dec h1 h2) as [->|Hne]; [lia|].
  pose proof (roundPercent_nearest h1 total Ht) as H1.
  pose proof (roundPercent_nearest h2 total Ht) as H2.
  nia.
Qed.

(** ** Counting statuses *)

Lemma countStatus_nil (s : string) : countStatus s [] = 0.
Proof. reflexivity. Qed.

Lemma countStatus_cons (s : string) (r : ValidationResult) (rs : list ValidationResult) :
  countStatus s (r :: rs) = (if decide (status r = s) then 1 else 0) + countStatus s rs.
Proof.
  unfold countStatus. rewrite filter_cons.
  destruct (decide (status r = s)); simpl length; lia.
Qed.

Lemma countStatus_app (s : string) (l1 l2 : list ValidationResult) :
  countStatus s (l1 ++ l2) = countStatus s l1 + countStatus s l2.
Proof.
  unfold countStatus. rewrite filter_app, length_app. lia.
Qed.

Lemma countStatus_nonneg (s : string) (rs : list ValidationResult) :
  0 <= countStatus s rs.
Proof. unfold countStatus. lia. Qed.

(** The statuses that the overview counts. *)
Definition knownStatus (r : ValidationResult) : Prop :=
  status r = "success" \/ status r = "failure" \/ status r = "warning".

Lemma counts_partition (rs : list ValidationResult) :
  Forall knownStatus rs ->
  countStatus "success" rs + countStatus "failure" rs + countStatus "warning" rs
  = Z.of_nat (length rs).
Proof.
  induction 1 as [|r rs Hr _ IH]; [reflexivity|].
  rewrite !countStatus_cons. simpl length. rewrite Nat2Z.inj_succ.
  destruct Hr as [Hs|[Hs|Hs]]; rewrite Hs;
    repeat (destruct (decide _); try congruence); lia.
Qed.

(** Replacing the record at index [i]. *)
Lemma insert_split {A} (l : list A) (i : nat) (x y : A) :
  l !! i = Some x ->
  l = take i l ++ x :: drop (S i) l /\ <[i := y]> l = take i l ++ y :: drop (S i) l.
Proof.
  intros Hi. split.
  - symmetry. apply take_drop_middle. exact Hi.
  - apply insert_take_drop. eapply lookup_lt_Some. exact Hi.
Qed.

Definition withStatus (s : string) (r : ValidationResult) : ValidationResult :=
  {| project := project r; timestamp := timestamp r; status := s;
     executionTime := executionTime r; testCount := testCount r;
     totalTests := totalTests r; patterns := patterns r |}.

Lemma countStatus_reclassify (s : string) (rs : list ValidationResult) (i : nat)
    (r : ValidationResult) (s' : string) :
  rs !! i = Some r ->
  countStatus s (<[i := withStatus s' r]> rs)
  = countStatus s rs - (if decide (status r = s) then 1 else 0)
    + (if decide (s' = s) then 1 else 0).
Proof.
  intros Hi. destruct (insert_split rs i r (withStatus s' r) Hi) as [Hl Hins].
  rewrite Hins. rewrite Hl at 3.
  rewrite !countStatus_app, !countStatus_cons. simpl status. lia.
Qed.

(** ** Overview calculator *)

Lemma overview_nonempty `{PercentRounding} (now : Z) (rs : list ValidationResult) :
  rs <> [] ->
  calculateOverviewMetrics now rs =
  {| totalValidations := Z.of_nat (length rs);
     successRate := roundPercent (2 * countStatus "success" rs) (Z.of_nat (length rs));
     failureRate := roundPercent (2 * countStatus "failure" rs) (Z.of_nat (length rs));
     warningRate := roundPercent (2 * countStatus "warning" rs) (Z.of_nat (length rs));
     qualityScore :=
       roundPercent (2 * countStatus "success" rs + countStatus "warning" rs)
         (Z.of_nat (length rs));
     trend := calculateTrend now rs 7;
     breakdown := Some {| successful := countStatus "success" rs;
                          failed := countStatus "failure" rs;
                          warnings := countStatus "warning" rs |} |}.
Proof.
  intros Hne. unfold calculateOverviewMetrics.
  destruct rs as [|r rs]; [congruence|].
  simpl length. rewrite Nat2Z.inj_succ.
  destruct (Z.eqb_spec (Z.succ (Z.of_nat (length rs))) 0); [lia|reflexivity].
Qed.

(** C8. For the empty record set the overview is all zero with trend
    "stable" and no breakdown key, and the health result is
    "unknown" with score 0, no indicators and the single
    recommendation "No validation data available"; both are ordinary
    return values. *)
Theorem C8_empty_record_set `{PercentRounding} (now : Z) :
  calculateOverviewMetrics now [] =
    {| totalValidations := 0; successRate := 0; failureRate := 0; warningRate := 0;
       qualityScore := 0; trend := stable; breakdown := None |}
  /\ calculateHealthMetrics now [] =
    {| overall := unknown; score := 0; indicators := [];
       recommendations := ["No validation data available"]; lastUpdate := None |}.
Proof. split; reflexivity. Qed.

(** C6. For a non-empty record set whose statuses are all success,
    failure or warning, the three rounded rates add up to 99, 100 or
    101. *)
Theorem C6_rates_sum_within_one `{PercentRounding} (now : Z) (rs : list ValidationResult) :
  rs <> [] ->
  Forall knownStatus rs ->
  let m := calculateOverviewMetrics now rs in
  99 <= successRate m + failureRate m + warningRate m <= 101.
Proof.
  intros Hne Hknown. rewrite (overview_nonempty now rs Hne). simpl.
  assert (Ht : 0 < Z.of_nat (length rs)) by (destruct rs; [congruence | simpl length; lia]).
  pose proof (counts_partition rs Hknown) as Hsum.
  pose proof (roundPercent_nearest (2 * countStatus "success" rs) _ Ht) as Hs.
  pose proof (roundPercent_nearest (2 * countStatus "failure" rs) _ Ht) as Hf.
  pose proof (roundPercent_nearest (2 * countStatus "warning" rs) _ Ht) as Hw.
  set (t := Z.of_nat (length rs)) in *.
  set (a := roundPercent (2 * countStatus "success" rs) t) in *.
  set (b := roundPercent (2 * countStatus "failure" rs) t) in *.
  set (c := roundPercent (2 * countStatus "warning" rs) t) in *.
  nia.
Qed.

(** A reclassification that the quality score must not punish: a
    failure becomes a warning, or a warning becomes a success. *)
Definition promotes (s s' : string) : Prop :=
  (s = "failure" /\ s' = "warning") \/ (s = "warning" /\ s' = "success").

Lemma qualityScore_nonempty `{PercentRounding} (now : Z) (rs : list ValidationResult) :
  rs <> [] ->
  qualityScore (calculateOverviewMetrics now rs)
  = roundPercent (2 * countStatus "success" rs + countStatus "warning" rs)
      (Z.of_nat (length rs)).
Proof. intros Hne. rewrite (overview_nonempty now rs Hne). reflexivity. Qed.

(** C7. Reclassifying one record from failure to warning, or from
    warning to success, does not decrease the quality score of the
    record set. *)
Theorem C7_quality_score_monotone `{PercentRounding} (now : Z)
    (rs : list ValidationResult) (i : nat)
    (r : ValidationResult) (s' : string) :
  rs !! i = Some r ->
  promotes (status r) s' ->
  qualityScore (calculateOverviewMetrics now rs)
  <= qualityScore (calculateOverviewMetrics now (<[i := withStatus s' r]> rs)).
Proof.
  intros Hi Hp.
  assert (Hne : rs <> []) by (intros ->; discriminate Hi).
  assert (Hne' : <[i := withStatus s' r]> rs <> []).
  { intros Hnil. apply (f_equal length) in Hnil. rewrite length_insert in Hnil.
    destruct rs; [congruence | discriminate Hnil]. }
  rewrite (qualityScore_nonempty now _ Hne), (qualityScore_nonempty now _ Hne').
  rewrite length_insert.
  rewrite !(countStatus_reclassify _ rs i r s' Hi).
  apply roundPercent_mono.
  - destruct rs; [congruence | simpl length; lia].
  - destruct Hp as [[Hs ->]|[Hs ->]]; rewrite Hs;
      repeat (destruct (decide _); try congruence); lia.
Qed.

(** ** Presence of the breakdown key *)

Lemma breakdown_none_iff `{PercentRounding} (now : Z) (rs : list ValidationResult) :
  breakdown (calculateOverviewMetrics now rs) = None <-> rs = [].
Proof.
  split.
  - intros Hnone. destruct rs as [|r rs]; [reflexivity|].
    rewrite overview_nonempty in Hnone by discriminate. discriminate Hnone.
  - intros ->. reflexivity.
Qed.

(** The records of a trend bucket: those with
    [periodStart <= timestamp < periodEnd]. *)
Definition periodResultsOf (results : list ValidationResult) (periodStart periodEnd : Z)
  : list ValidationResult :=
  filter (fun r => (dateGe r periodStart && dateLt r periodEnd)%bool = true) results.

(** C10. The overview carries the breakdown key exactly when the
    record set is non-empty; so a trend bucket carries it exactly when
    some record falls into its period, and a bucket without records
    has no breakdown. *)
Theorem C10_breakdown_iff_nonempty `{PercentRounding} (now : Z)
    (results : list ValidationResult) :
  (is_Some (breakdown (calculateOverviewMetrics now results)) <-> results <> [])
  /\ forall timeframe : Z,
       Forall (fun point =>
                 breakdown (periodMetrics point) = None
                 <-> periodResultsOf results (rangeStart point) (rangeEnd point) = [])
              (calculateTrendMetrics now results timeframe).
Proof.
  split.
  - rewrite <- not_eq_None_Some. rewrite breakdown_none_iff. reflexivity.
  - intros timeframe. unfold calculateTrendMetrics.
    apply Forall_map, Forall_forall. intros i _.
    unfold trendPoint, periodResultsOf. simpl.
    apply breakdown_none_iff.
Qed.

(** ** Trend bucketizer *)

(** With enough fuel the loop ends because [i] falls below zero, and
    its iterations are [i], [i - d], ..., one for every multiple of
    [d] up to [i]. *)
Lemma periodOffsets_spec (d : Z) (fuel : nat) :
  0 < d ->
  forall i : Z,
    0 <= i -> (Z.to_nat i < fuel)%nat ->
    periodOffsets fuel i d
    = map (fun k => i - Z.of_nat k * d) (seq 0 (Z.to_nat (i / d + 1))).
Proof.
  intros Hd. induction fuel as [|fuel IH]; intros i Hi Hfuel; [lia|].
  simpl periodOffsets.
  destruct (Z.leb_spec 0 i) as [_|]; [|lia].
  destruct (Z.lt_ge_cases (i - d) 0) as [Hlast|Hmore].
  - assert (Hq : i / d = 0) by (apply Z.div_small; lia).
    rewrite Hq. simpl. f_equal; [lia|].
    destruct fuel as [|fuel']; [reflexivity|]. simpl.
    destruct (Z.leb_spec 0 (i - d)); [lia|reflexivity].
  - rewrite (IH (i - d)) by lia.
    assert (Hq : i / d = (i - d) / d + 1).
    { replace i with ((i - d) + 1 * d) at 1 by lia.
      rewrite Z.div_add by lia. reflexivity. }
    assert (Hq0 : 0 <= (i - d) / d) by (apply Z.div_pos; lia).
    rewrite Hq.
    replace (Z.to_nat ((i - d) / d + 1 + 1)) with (S (Z.to_nat ((i - d) / d + 1))) by lia.
    rewrite <- cons_seq. simpl map. f_equal; [lia|].
    rewrite <- fmap_S_seq.
    change (@map nat Z) with (@fmap list _ nat Z).
    rewrite <- list_fmap_compose.
    apply list_fmap_ext. intros _ k _. simpl. lia.
Qed.

Definition daysPerPeriodOf (timeframe : Z) : Z := Z.max 1 (timeframe / 10).

Lemma daysPerPeriodOf_pos (timeframe : Z) : 0 < daysPerPeriodOf timeframe.
Proof. unfold daysPerPeriodOf. lia. Qed.

(** The buckets of a non-negative timeframe: bucket [k] ends
    [timeframe - k * daysPerPeriod] days before [now]. *)
Lemma calculateTrendMetrics_spec `{PercentRounding} (now : Z)
    (results : list ValidationResult)
    (timeframe : Z) :
  0 <= timeframe ->
  calculateTrendMetrics now results timeframe
  = map (fun k => trendPoint now results (daysPerPeriodOf timeframe)
                    (timeframe - Z.of_nat k * daysPerPeriodOf timeframe))
        (seq 0 (Z.to_nat (timeframe / daysPerPeriodOf timeframe + 1))).
Proof.
  intros Htf. unfold calculateTrendMetrics. fold (daysPerPeriodOf timeframe).
  rewrite (periodOffsets_spec _ _ (daysPerPeriodOf_pos timeframe)) by lia.
  change (@map) with (fun A B => @fmap list _ A B).
  cbv beta. rewrite <- list_fmap_compose. reflexivity.
Qed.

Lemma calculateTrendMetrics_length `{PercentRounding} (now : Z)
    (results : list ValidationResult)
    (timeframe : Z) :
  0 <= timeframe ->
  Z.of_nat (length (calculateTrendMetrics now results timeframe))
  = timeframe / daysPerPeriodOf timeframe + 1.
Proof.
  intros Htf. rewrite calculateTrendMetrics_spec by assumption.
  rewrite length_map, length_seq.
  pose proof (Z.div_pos timeframe _ Htf (daysPerPeriodOf_pos timeframe)). lia.
Qed.

(** Every bucket is [daysPerPeriod] days wide. *)
Lemma calculateTrendMetrics_width `{PercentRounding} (now : Z)
    (results : list ValidationResult)
    (timeframe : Z) :
  Forall (fun point =>
            rangeEnd point - rangeStart point = daysPerPeriodOf timeframe * msPerDay)
         (calculateTrendMetrics now results timeframe).
Proof.
  unfold calculateTrendMetrics. apply Forall_map, Forall_forall. intros i _.
  unfold trendPoint, daysPerPeriodOf. simpl. lia.
Qed.

(** The buckets are emitted oldest first and abut: bucket [k + 1]
    starts where bucket [k] ends. *)
Lemma calculateTrendMetrics_oldest_first `{PercentRounding} (now : Z)
    (results : list ValidationResult)
    (timeframe : Z) (k : nat) (p q : TrendPoint) :
  0 <= timeframe ->
  calculateTrendMetrics now results timeframe !! k = Some p ->
  calculateTrendMetrics now results timeframe !! S k = Some q ->
  rangeStart q = rangeEnd p /\ rangeEnd p < rangeEnd q.
Proof.
  intros Htf. rewrite calculateTrendMetrics_spec by assumption.
  change (@map) with (fun A B => @fmap list _ A B). cbv beta.
  rewrite !list_lookup_fmap.
  intros Hp Hq.
  destruct (seq 0 _ !! k) as [a|] eqn:Ha; [|discriminate Hp].
  destruct (seq 0 _ !! S k) as [b|] eqn:Hb; [|discriminate Hq].
  apply lookup_seq in Ha as [-> _]. apply lookup_seq in Hb as [-> _].
  simpl in Hp, Hq. injection Hp as <-. injection Hq as <-.
  pose proof (daysPerPeriodOf_pos timeframe).
  unfold trendPoint, msPerDay. simpl rangeStart. simpl rangeEnd. nia.
Qed.

(** The first bucket ends [timeframe] days before [now]; the last one
    ends less than one bucket width before [now]. *)
Lemma calculateTrendMetrics_ends `{PercentRounding} (now : Z)
    (results : list ValidationResult)
    (timeframe : Z) :
  0 <= timeframe ->
  (rangeEnd <$> head (calculateTrendMetrics now results timeframe))
    = Some (now - timeframe * msPerDay)
  /\ (rangeEnd <$> last (calculateTrendMetrics now results timeframe))
    = Some (now - (timeframe mod daysPerPeriodOf timeframe) * msPerDay).
Proof.
  intros Htf. rewrite calculateTrendMetrics_spec by assumption.
  pose proof (daysPerPeriodOf_pos timeframe) as Hd.
  pose proof (Z.div_pos timeframe _ Htf Hd) as Hq.
  replace (Z.to_nat (timeframe / daysPerPeriodOf timeframe + 1))
    with (S (Z.to_nat (timeframe / daysPerPeriodOf timeframe))) by lia.
  split.
  - simpl. f_equal. lia.
  - rewrite seq_S. rewrite map_app. simpl map. rewrite last_snoc. simpl.
    f_equal. rewrite Z2Nat.id by lia.
    rewrite (Z.mod_eq timeframe (daysPerPeriodOf timeframe)) by lia. lia.
Qed.

(** The number of buckets never exceeds 20. *)
Lemma calculateTrendMetrics_at_most_20 `{PercentRounding} (now : Z)
    (results : list ValidationResult)
    (timeframe : Z) :
  (length (calculateTrendMetrics now results timeframe) <= 20)%nat.
Proof.
  destruct (Z.lt_ge_cases timeframe 0) as [Hneg|Htf].
  - unfold calculateTrendMetrics. rewrite length_map. simpl.
    destruct (Z.leb_spec 0 timeframe); [lia | simpl; lia].
  - pose proof (calculateTrendMetrics_length now results timeframe Htf) as Hlen.
    assert (timeframe / daysPerPeriodOf timeframe <= 19); [|lia].
    unfold daysPerPeriodOf.
    destruct (Z.max_spec 1 (timeframe / 10)) as [[Hlt ->]|[Hge ->]].
    + assert (10 * (timeframe / 10) <= timeframe) by (apply Z.mul_div_le; lia).
      assert (timeframe < (2 * (timeframe / 10)) * 10).
      { pose proof (Z.mod_pos_bound timeframe 10).
        pose proof (Z.div_mod timeframe 10). lia. }
      apply Z.lt_succ_r. apply Z.div_lt_upper_bound; lia.
    + rewrite Z.div_1_r.
      assert (timeframe / 10 < 2) by lia.
      pose proof (Z.mod_pos_bound timeframe 10).
      pose proof (Z.div_mod timeframe 10). lia.
Qed.

(** C2. With a timeframe of 19 days the bucket width is
    [max 1 (floor (19 / 10)) = 1] day and the loop emits 20 buckets,
    one for each of [i = 19, 18, ..., 0]: more than 11. *)
Theorem C2_nineteen_days_twenty_buckets `{PercentRounding} (now : Z)
    (results : list ValidationResult) :
  daysPerPeriodOf 19 = 1
  /\ length (calculateTrendMetrics now results 19) = 20%nat.
Proof.
  split; [reflexivity|].
  unfold calculateTrendMetrics. rewrite length_map. reflexivity.
Qed.

(** ** Performance calculator *)

(** The statistics of a list of numbers, as the calculator computes
    them once it has chosen the numbers. *)
Definition meanOf (xs : list Z) : Z :=
  if 0 <? Z.of_nat (length xs) then Js.roundDiv (Js.sum xs) (Z.of_nat (length xs)) else 0.

Definition medianOrZero (xs : list Z) : Z :=
  if 0 <? Z.of_nat (length xs) then medianOf xs else 0.

Definition maxOrZero (xs : list Z) : Z :=
  match xs with x :: xs' => Js.maxOf x xs' | [] => 0 end.

Definition minOrZero (xs : list Z) : Z :=
  match xs with x :: xs' => Js.minOf x xs' | [] => 0 end.

(** [m] holds the execution-time statistics of [times] and the
    test-count statistics of [counts]. *)
Definition performanceOver (times counts : list Z) (m : PerformanceMetrics) : Prop :=
  averageExecutionTime m = meanOf times
  /\ medianExecutionTime m = medianOrZero times
  /\ maxExecutionTime m = maxOrZero times
  /\ minExecutionTime m = minOrZero times
  /\ averageTestCount m = meanOf counts
  /\ totalTestsExecuted m = Js.sum counts.

(** Stated after the specification: the values that contribute are
    those of the records whose field is defined, a defined 0 included. *)
Definition definedExecutionTimes (results : list ValidationResult) : list Z :=
  omap executionTime results.

Definition definedTestCounts (results : list ValidationResult) : list Z :=
  omap testCount results.

(** The test count that the calculator reads from a record:
    [testCount], and [totalTests] when [testCount] is absent. *)
Definition countedTests (r : ValidationResult) : option Z :=
  match testCount r with
  | Some n => Some n
  | None => totalTests r
  end.

Lemma calculatePerformanceMetrics_over (results : list ValidationResult) :
  performanceOver (executionTimesOf results) (testCountsOf results)
    (calculatePerformanceMetrics results).
Proof. repeat split. Qed.

(** [filter(Boolean)] keeps the defined values that are not zero. *)
Lemma filterBoolean_spec (xs : list (option Z)) :
  Js.filterBoolean xs = filter (fun x => x <> 0) (omap id xs).
Proof.
  induction xs as [|[x|] xs IH]; simpl; [reflexivity| |exact IH].
  rewrite filter_cons, IH.
  destruct (Z.eqb_spec x 0), (decide (x <> 0)); try reflexivity; lia.
Qed.

Lemma filterBoolean_no_zero {A} (f : A -> option Z) (l : list A) :
  Forall (fun a => f a <> Some 0) l ->
  Js.filterBoolean (map f l) = omap f l.
Proof.
  induction 1 as [|a l Ha _ IH]; [reflexivity|].
  simpl. destruct (f a) as [x|] eqn:Hfa; simpl.
  - destruct (Z.eqb_spec x 0); [congruence|]. rewrite IH. reflexivity.
  - exact IH.
Qed.

Lemma omap_agree {A B} (f g : A -> option B) (l : list A) :
  Forall (fun a => f a = g a) l -> omap f l = omap g l.
Proof.
  induction 1 as [|a l Ha _ IH]; [reflexivity|].
  unfold omap in *. simpl. rewrite Ha, IH. reflexivity.
Qed.

(** No field of the record that counts time or tests holds a zero. *)
Definition noZeroField (r : ValidationResult) : Prop :=
  executionTime r <> Some 0 /\ testCount r <> Some 0 /\ totalTests r <> Some 0.

(** C5, as the code has it.  On records none of whose executionTime,
    testCount and totalTests fields is zero: the execution-time
    statistics are those of the executionTime values of the records
    that define the field, the records lacking it being left out
    rather than counted as zero; the test-count statistics are those
    of the testCount values, a record without testCount contributing
    its totalTests when it has one. *)
Theorem C5_defined_fields_contribute (results : list ValidationResult) :
  Forall noZeroField results ->
  performanceOver (definedExecutionTimes results) (omap countedTests results)
    (calculatePerformanceMetrics results).
Proof.
  intros Hnz.
  assert (Htimes : executionTimesOf results = definedExecutionTimes results).
  { unfold executionTimesOf, definedExecutionTimes.
    apply filterBoolean_no_zero.
    eapply Forall_impl; [exact Hnz|]. intros r (H & _ & _). exact H. }
  assert (Hcounts : testCountsOf results = omap countedTests results).
  { unfold testCountsOf.
    rewrite (filterBoolean_no_zero (fun r => Js.orNum (testCount r) (totalTests r))).
    - apply omap_agree.
      eapply Forall_impl; [exact Hnz|]. intros r (_ & Hc & _).
      unfold Js.orNum, countedTests, Js.truthyNum.
      destruct (testCount r) as [n|]; [|reflexivity].
      destruct (Z.eqb_spec n 0); simpl; congruence.
    - eapply Forall_impl; [exact Hnz|]. intros r (_ & Hc & Ht).
      unfold Js.orNum, Js.truthyNum.
      destruct (testCount r) as [n|]; [|exact Ht].
      destruct (Z.eqb_spec n 0); simpl; congruence. }
  rewrite <- Htimes, <- Hcounts. apply calculatePerformanceMetrics_over.
Qed.

Definition timedRecord (time count total : option Z) : ValidationResult :=
  {| project := Some "alpha"; timestamp := Some 1000; status := "success";
     executionTime := time; testCount := count; totalTests := total; patterns := [] |}.

Lemma C5_defined_fields_contribute_witness :
  let results := [timedRecord (Some 100) (Some 3) None;
                  timedRecord None None (Some 5);
                  timedRecord (Some 300) None None] in
  Forall noZeroField results
  /\ performanceOver [100; 300] [3; 5] (calculatePerformanceMetrics results).
Proof.
  intros results.
  assert (Hnz : Forall noZeroField results).
  { repeat (constructor; [unfold noZeroField; simpl; repeat split; discriminate|]).
    constructor. }
  split; [exact Hnz|].
  exact (C5_defined_fields_contribute results Hnz).
Defined.

(** C5, as the specification words it, fails twice.  A record whose
    executionTime is a defined 0 does not contribute: with the times 0
    and 100 the minimum reported is 100 and the average is 100, not 0
    and 50.  A record without testCount contributes its totalTests:
    the total of tests executed is 5, not 0. *)
Lemma C5_counterexample :
  let zeroTime := [timedRecord (Some 0) None None; timedRecord (Some 100) None None] in
  let fallback := [timedRecord None None (Some 5)] in
  (definedExecutionTimes zeroTime = [0; 100]
   /\ minOrZero (definedExecutionTimes zeroTime) = 0
   /\ minExecutionTime (calculatePerformanceMetrics zeroTime) = 100
   /\ meanOf (definedExecutionTimes zeroTime) = 50
   /\ averageExecutionTime (calculatePerformanceMetrics zeroTime) = 100
   /\ ~ performanceOver (definedExecutionTimes zeroTime) (definedTestCounts zeroTime)
          (calculatePerformanceMetrics zeroTime))
  /\ (definedTestCounts fallback = []
      /\ totalTestsExecuted (calculatePerformanceMetrics fallback) = 5
      /\ ~ performanceOver (definedExecutionTimes fallback) (definedTestCounts fallback)
             (calculatePerformanceMetrics fallback)).
Proof.
  intros zeroTime fallback. split.
  - repeat (split; [reflexivity|]).
    intros (Havg & _). vm_compute in Havg. discriminate Havg.
  - repeat (split; [reflexivity|]).
    intros (_ & _ & _ & _ & _ & Htotal). vm_compute in Htotal. discriminate Htotal.
Qed.

(** ** Result accessor *)

Lemma loadValidationResults_unreadable (store : Store) (projectName : option string)
    (cutoffDate : option Z) (message : string) :
  ensureDir store = Thrown message
  \/ (ensureDir store = Returned tt /\ readdir store = Thrown message) ->
  loadValidationResults store projectName cutoffDate = Thrown message.
Proof.
  unfold loadValidationResults.
  intros [-> | [-> ->]]; reflexivity.
Qed.

(** When the directory can be created and listed the load returns,
    whatever happens to the single files. *)
Lemma loadValidationResults_readable (store : Store) (projectName : option string)
    (cutoffDate : option Z) (files : list FileEntry) :
  ensureDir store = Returned tt ->
  readdir store = Returned files ->
  exists results,
    loadValidationResults store projectName cutoffDate = Returned results.
Proof.
  intros He Hr. unfold loadValidationResults. rewrite He, Hr. simpl. eauto.
Qed.

(** A file that cannot be read, or whose modification time cannot be
    read, is skipped. *)
Lemma loadFile_unreadable (projectName : option string) (cutoffDate : option Z)
    (file : FileEntry) (message : string) :
  readJson file = Thrown message \/ statMtime file = Thrown message ->
  loadFile projectName cutoffDate file = [].
Proof.
  unfold loadFile. intros [-> | ->]; [reflexivity|].
  destruct (readJson file); reflexivity.
Qed.

(** ** Comparative calculator *)

(** C9. [calculateComparativeMetrics] always returns: when the load of
    all records throws, the zeroed structure with no projects, rank
    [null] and a zero industry average; otherwise the metrics it
    computed. *)
Theorem C9_comparative_never_throws `{PercentRounding} (now : Z) (store : Store)
    (currentResults : list ValidationResult) (currentProject : option string) :
  match loadValidationResults store None None with
  | Thrown _ =>
      calculateComparativeMetrics now store currentResults currentProject
      = Returned {| projects := []; totalProjects := 0; currentProjectRank := None;
                    industryAverage := {| avgQualityScore := 0; avgSuccessRate := 0 |} |}
  | Returned _ =>
      exists m,
        calculateComparativeMetrics now store currentResults currentProject = Returned m
  end.
Proof.
  unfold calculateComparativeMetrics.
  destruct (loadValidationResults store None None) as [allResults|message]; simpl.
  - eauto.
  - reflexivity.
Qed.

Lemma calculateComparativeMetrics_returns `{PercentRounding} (now : Z) (store : Store)
    (currentResults : list ValidationResult) (currentProject : option string) :
  exists m,
    calculateComparativeMetrics now store currentResults currentProject = Returned m.
Proof.
  unfold calculateComparativeMetrics.
  destruct (loadValidationResults store None None); simpl; eauto.
Qed.

(** A store whose directory cannot be created. *)
Definition unreadableStore : Store :=
  {| ensureDir := Thrown "EACCES: permission denied";
     readdir := Thrown "EACCES: permission denied" |}.

(** *** Sorting by quality score *)

Lemma insertBy_perm {A} (cmp : A -> A -> Z) (x : A) (xs : list A) :
  Js.insertBy cmp x xs ≡ₚ x :: xs.
Proof.
  induction xs as [|y ys IH]; simpl; [reflexivity|].
  destruct (cmp x y <=? 0); [reflexivity|].
  rewrite IH. apply Permutation_swap.
Qed.

Lemma sortBy_perm {A} (cmp : A -> A -> Z) (xs : list A) :
  Js.sortBy cmp xs ≡ₚ xs.
Proof.
  induction xs as [|x xs IH]; simpl; [reflexivity|].
  rewrite insertBy_perm, IH. reflexivity.
Qed.

Section Descending.

Context {A : Type} (key : A -> Z).

(** [(a, b) => key(b) - key(a)] *)
Definition descendingBy (a b : A) : Z := key b - key a.

Definition notBelow (a b : A) : Prop := key b <= key a.

Lemma insertBy_descending (x : A) (xs : list A) :
  StronglySorted notBelow xs ->
  StronglySorted notBelow (Js.insertBy descendingBy x xs).
Proof.
  induction 1 as [|y ys Hsorted IH Hy]; simpl.
  - repeat constructor.
  - unfold descendingBy at 1.
    destruct (Z.leb_spec (key y - key x) 0) as [Hle|Hgt].
    + constructor; [constructor; assumption|].
      constructor; [unfold notBelow; lia|].
      eapply Forall_impl; [exact Hy|]. unfold notBelow. intros z Hz. lia.
    + constructor; [exact IH|].
      rewrite insertBy_perm. constructor; [unfold notBelow; lia | exact Hy].
Qed.

Lemma sortBy_descending (xs : list A) :
  StronglySorted notBelow (Js.sortBy descendingBy xs).
Proof.
  induction xs as [|x xs IH]; simpl; [constructor|].
  apply insertBy_descending, IH.
Qed.

End Descending.

(** The projects returned are sorted by descending quality score. *)
Lemma rankedProjects_sorted `{PercentRounding} (now : Z) (currentProject : option string)
    (allResults : list ValidationResult) :
  StronglySorted (fun a b => qualityScore (cmpOverview b) <= qualityScore (cmpOverview a))
    (rankedProjects now currentProject allResults).
Proof.
  apply (sortBy_descending (fun c => qualityScore (cmpOverview c))).
Qed.

(** Every project ranked has at least 5 records. *)
Lemma compareProject_qualifies `{PercentRounding} (now : Z) (currentProject : option string)
    (group : string * list ValidationResult) (c : ProjectComparison) :
  c ∈ compareProject now currentProject group ->
  cmpProject c = group.1 /\ (5 <= length group.2)%nat.
Proof.
  destruct group as [name results]. unfold compareProject.
  destruct (Z.ltb_spec (Z.of_nat (length results)) 5) as [Hlt|Hge].
  - intros Hin. inversion Hin.
  - intros Hin. apply list_elem_of_singleton in Hin. subst c. simpl. split; [reflexivity|lia].
Qed.

(** *** Rank of the current project *)

Lemma findIndexFrom_absent {A} (p : A -> bool) (i : Z) (xs : list A) :
  Forall (fun x => p x = false) xs -> Js.findIndexFrom p i xs = -1.
Proof.
  intros Hall. revert i. induction Hall as [|x xs Hx _ IH]; intros i; simpl.
  - reflexivity.
  - rewrite Hx. apply IH.
Qed.

Lemma findIndexFrom_found {A} (p : A -> bool) (i : Z) (xs : list A) (k : nat) (x : A) :
  xs !! k = Some x ->
  p x = true ->
  Forall (fun y => p y = false) (take k xs) ->
  Js.findIndexFrom p i xs = i + Z.of_nat k.
Proof.
  revert i k. induction xs as [|y ys IH]; intros i k Hk Hp Hbefore.
  - discriminate Hk.
  - destruct k as [|k]; simpl in *.
    + injection Hk as ->. rewrite Hp. lia.
    + apply Forall_cons in Hbefore as [Hy Hbefore]. rewrite Hy.
      rewrite (IH (i + 1) k Hk Hp Hbefore). lia.
Qed.

(** With a current project given, the rank is the 1-based position of
    its first entry in the sorted list. *)
Lemma currentRankOf_present (currentProject : string)
    (comparisons : list ProjectComparison) (k : nat) (c : ProjectComparison) :
  currentProject <> "" ->
  comparisons !! k = Some c ->
  cmpProject c = currentProject ->
  Forall (fun c' => cmpProject c' <> currentProject) (take k comparisons) ->
  currentRankOf (Some currentProject) comparisons = Some (Z.of_nat k + 1).
Proof.
  intros Hne Hk Hc Hbefore. unfold currentRankOf, Js.truthyStr.
  destruct (String.eqb_spec currentProject ""); [contradiction|]. simpl negb. cbv iota.
  unfold Js.findIndex.
  rewrite (findIndexFrom_found _ 0 comparisons k c Hk).
  - f_equal.
  - simpl. apply String.eqb_eq. exact Hc.
  - eapply Forall_impl; [exact Hbefore|]. intros c' Hc'. simpl.
    apply String.eqb_neq. exact Hc'.
Qed.

(** With a current project given that is not in the sorted list, the
    rank is 0: [findIndex] answers [-1] and the source adds 1. *)
Lemma currentRankOf_absent (currentProject : string)
    (comparisons : list ProjectComparison) :
  currentProject <> "" ->
  Forall (fun c => cmpProject c <> currentProject) comparisons ->
  currentRankOf (Some currentProject) comparisons = Some 0.
Proof.
  intros Hne Habsent. unfold currentRankOf, Js.truthyStr.
  destruct (String.eqb_spec currentProject ""); [contradiction|]. simpl negb. cbv iota.
  unfold Js.findIndex. rewrite findIndexFrom_absent; [reflexivity|].
  eapply Forall_impl; [exact Habsent|]. intros c Hc. simpl.
  apply String.eqb_neq. exact Hc.
Qed.

(** Without a current project ([null], [undefined] or the empty
    string) the rank is [null]. *)
Lemma currentRankOf_no_project (currentProject : option string)
    (comparisons : list ProjectComparison) :
  Js.truthyStr currentProject = false ->
  currentRankOf currentProject comparisons = None.
Proof. intros H. unfold currentRankOf. rewrite H. reflexivity. Qed.

(** ** Metrics orchestrator and cache *)

Section OrchestratorFacts.

Context `{PercentRounding} {PatternMetrics : Type}.
Variable calculatePatternMetrics : Store -> list ValidationResult -> PatternMetrics.

(** The service after a recomputation at [now] that produced [metrics]. *)
Definition stored (this : MetricsService PatternMetrics) (cacheKey : string)
    (metrics : MetricsSnapshot PatternMetrics) (now : Z)
  : MetricsService PatternMetrics :=
  {| metricsCache := <[cacheKey := {| data := metrics; computedAt := now |}]>
                       (metricsCache this);
     cacheTimeout := cacheTimeout this |}.

Lemma cachedSnapshot_fresh (this : MetricsService PatternMetrics) (now : Z)
    (cacheKey : string)
    (entry : CacheEntry PatternMetrics) :
  metricsCache this !! cacheKey = Some entry ->
  now - computedAt entry < cacheTimeout this ->
  cachedSnapshot this now cacheKey = Some (data entry).
Proof.
  intros Hentry Hfresh. unfold cachedSnapshot. rewrite Hentry.
  destruct (Z.ltb_spec (now - computedAt entry) (cacheTimeout this)); [reflexivity|lia].
Qed.

Lemma cachedSnapshot_stale (this : MetricsService PatternMetrics) (now : Z)
    (cacheKey : string) :
  metricsCache this !! cacheKey = None
  \/ (exists entry, metricsCache this !! cacheKey = Some entry
                    /\ cacheTimeout this <= now - computedAt entry) ->
  cachedSnapshot this now cacheKey = None.
Proof.
  unfold cachedSnapshot. intros [-> | (entry & -> & Hstale)]; [reflexivity|].
  destruct (Z.ltb_spec (now - computedAt entry) (cacheTimeout this)); [lia|reflexivity].
Qed.

Lemma calculateQualityMetrics_timeout (this : MetricsService PatternMetrics) (now : Z)
    (store : Store)
    (projectName : option string) (timeframe : Z) :
  cacheTimeout
    (calculateQualityMetrics calculatePatternMetrics this now store projectName timeframe).2
  = cacheTimeout this.
Proof.
  unfold calculateQualityMetrics.
  destruct (cachedSnapshot this now _); [reflexivity|].
  destruct (computeSnapshot _ now store projectName timeframe); reflexivity.
Qed.

Lemma calculateQualityMetrics_hit (this : MetricsService PatternMetrics) (now : Z)
    (store : Store) (projectName : option string) (timeframe : Z)
    (entry : CacheEntry PatternMetrics) :
  metricsCache this !! cacheKeyOf projectName timeframe = Some entry ->
  now - computedAt entry < cacheTimeout this ->
  calculateQualityMetrics calculatePatternMetrics this now store projectName timeframe
  = (Returned (data entry), this).
Proof.
  intros Hentry Hfresh. unfold calculateQualityMetrics.
  rewrite (cachedSnapshot_fresh this now _ entry Hentry Hfresh). reflexivity.
Qed.

(** C3, as the code has it.  When the validation-results directory
    cannot be created or cannot be listed, [loadValidationResults]
    throws that error, whatever the filters, and a call of
    [calculateQualityMetrics] that finds no fresh cache entry throws
    "Failed to calculate quality metrics: " followed by its message,
    leaving the service as it was. *)
Theorem C3_unreadable_store_raises (this : MetricsService PatternMetrics) (now : Z)
    (store : Store)
    (projectName : option string) (timeframe : Z) (message : string) :
  ensureDir store = Thrown message
  \/ (ensureDir store = Returned tt /\ readdir store = Thrown message) ->
  cachedSnapshot this now (cacheKeyOf projectName timeframe) = None ->
  (forall cutoffDate,
      loadValidationResults store projectName cutoffDate = Thrown message)
  /\ calculateQualityMetrics calculatePatternMetrics this now store projectName timeframe
     = (Thrown ("Failed to calculate quality metrics: " +:+ message), this).
Proof.
  intros Hstore Hmiss. split.
  - intros cutoffDate. apply loadValidationResults_unreadable, Hstore.
  - unfold calculateQualityMetrics. rewrite Hmiss.
    unfold computeSnapshot.
    rewrite (loadValidationResults_unreadable store projectName _ message Hstore).
    reflexivity.
Qed.

(** C4, as the code has it.  With the timeout of the constructor: a
    cache entry for the key that is less than 300 000 ms old is
    returned as it is and the service is unchanged; with no entry, or
    one that is 300 000 ms old or older, the snapshot is recomputed
    and, when the recomputation returns, stored under the key with the
    time of the call and returned. *)
Theorem C4_cache_window (this : MetricsService PatternMetrics) (now : Z) (store : Store)
    (projectName : option string) (timeframe : Z) :
  cacheTimeout this = 300000 ->
  let cacheKey := cacheKeyOf projectName timeframe in
  let call :=
    calculateQualityMetrics calculatePatternMetrics this now store projectName timeframe in
  (forall entry,
      metricsCache this !! cacheKey = Some entry ->
      now - computedAt entry < 300000 ->
      call = (Returned (data entry), this))
  /\ (metricsCache this !! cacheKey = None
      \/ (exists entry, metricsCache this !! cacheKey = Some entry
                        /\ 300000 <= now - computedAt entry) ->
      forall metrics,
        computeSnapshot calculatePatternMetrics now store projectName timeframe
        = Returned metrics ->
        call = (Returned metrics, stored this cacheKey metrics now)
        /\ metricsCache call.2 !! cacheKey = Some {| data := metrics; computedAt := now |}).
Proof.
  intros Htimeout cacheKey call. subst call. split.
  - intros entry Hentry Hfresh.
    apply calculateQualityMetrics_hit; [exact Hentry | lia].
  - intros Hstale metrics Hcomputed.
    unfold calculateQualityMetrics. fold cacheKey.
    rewrite cachedSnapshot_stale by (rewrite Htimeout; exact Hstale).
    rewrite Hcomputed. split; [reflexivity|].
    simpl. apply lookup_insert_eq.
Qed.

(** Two calls for the same key: whatever the first call returned is
    returned again, and the service left alone, by every later call
    made while the entry is less than 300 000 ms old, even if the
    store has changed. *)
Lemma calculateQualityMetrics_repeat (this this' : MetricsService PatternMetrics)
    (now : Z) (store : Store)
    (projectName : option string) (timeframe : Z) (metrics : MetricsSnapshot PatternMetrics) :
  cacheTimeout this = 300000 ->
  calculateQualityMetrics calculatePatternMetrics this now store projectName timeframe
  = (Returned metrics, this') ->
  exists entry,
    metricsCache this' !! cacheKeyOf projectName timeframe = Some entry
    /\ data entry = metrics
    /\ forall now' store',
        now' - computedAt entry < 300000 ->
        calculateQualityMetrics calculatePatternMetrics this' now' store' projectName
          timeframe
        = (Returned metrics, this').
Proof.
  intros Htimeout Hcall.
  assert (Htimeout' : cacheTimeout this' = 300000).
  { rewrite <- Htimeout.
    rewrite <- (calculateQualityMetrics_timeout this now store projectName timeframe).
    rewrite Hcall. reflexivity. }
  assert (Hentry : exists entry,
             metricsCache this' !! cacheKeyOf projectName timeframe = Some entry
             /\ data entry = metrics).
  { unfold calculateQualityMetrics, cachedSnapshot in Hcall.
    destruct (metricsCache this !! cacheKeyOf projectName timeframe) as [entry|] eqn:Hlook.
    - destruct (now - computedAt entry <? cacheTimeout this).
      + injection Hcall as <- <-. eauto.
      + destruct (computeSnapshot _ now store projectName timeframe);
          [|discriminate Hcall].
        injection Hcall as <- <-. eexists. simpl. rewrite lookup_insert_eq. eauto.
    - destruct (computeSnapshot _ now store projectName timeframe);
        [|discriminate Hcall].
      injection Hcall as <- <-. eexists. simpl. rewrite lookup_insert_eq. eauto. }
  destruct Hentry as (entry & Hlook & Hdata). exists entry.
  split; [exact Hlook|]. split; [exact Hdata|].
  intros now' store' Hfresh.
  rewrite <- Hdata. apply calculateQualityMetrics_hit; [exact Hlook | lia].
Qed.

End OrchestratorFacts.

(** * Further properties of the calculators *)

(** ** Overview calculator: ranges and counts *)

(** A percentage of a part of the total lies between 0 and 100. *)
Lemma roundPercent_range `{PercentRounding} (halves total : Z) :
  0 < total -> 0 <= halves <= 2 * total ->
  0 <= roundPercent halves total <= 100.
Proof.
  intros Ht Hh. pose proof (roundPercent_nearest halves total Ht) as Hn. nia.
Qed.

Lemma countStatus_le_length (s : string) (rs : list ValidationResult) :
  countStatus s rs <= Z.of_nat (length rs).
Proof.
  unfold countStatus. pose proof (length_filter (fun r => status r = s) rs). lia.
Qed.

#[local] Instance knownStatus_dec (r : ValidationResult) : Decision (knownStatus r).
Proof. unfold knownStatus. apply _. Defined.

(** The three counts and the records of any other status make up the
    record set. *)
Lemma counts_and_others (rs : list ValidationResult) :
  countStatus "success" rs + countStatus "failure" rs + countStatus "warning" rs
  + Z.of_nat (length (filter (fun r => ~ knownStatus r) rs))
  = Z.of_nat (length rs).
Proof.
  induction rs as [|r rs IH]; [reflexivity|].
  rewrite !countStatus_cons, filter_cons. simpl length. rewrite Nat2Z.inj_succ.
  destruct (decide (~ knownStatus r)) as [Hother|Hknown].
  - simpl length. rewrite Nat2Z.inj_succ.
    unfold knownStatus in Hother.
    repeat (destruct (decide _)); try tauto; lia.
  - apply dec_stable in Hknown. destruct Hknown as [Hs|[Hs|Hs]]; rewrite Hs;
      repeat (destruct (decide _); try congruence); lia.
Qed.

Lemma overview_rates_bounds `{PercentRounding} (now : Z)
    (rs : list ValidationResult) :
  let m := calculateOverviewMetrics now rs in
  0 <= successRate m <= 100
  /\ 0 <= failureRate m <= 100
  /\ 0 <= warningRate m <= 100
  /\ successRate m <= qualityScore m <= 100.
Proof.
  destruct rs as [|r rs'] eqn:Hrs; [simpl; lia|]. rewrite <- Hrs.
  assert (Hne : rs <> []) by (rewrite Hrs; discriminate).
  rewrite (overview_nonempty now rs Hne). simpl.
  assert (Ht : 0 < Z.of_nat (length rs)) by (rewrite Hrs; simpl length; lia).
  pose proof (counts_and_others rs) as Hsum.
  pose proof (countStatus_nonneg "success" rs).
  pose proof (countStatus_nonneg "failure" rs).
  pose proof (countStatus_nonneg "warning" rs).
  repeat split; try (apply roundPercent_range; lia);
    try (apply roundPercent_mono; lia).
Qed.

(** X1. Every rate and the quality score lie between 0 and 100, and
    the quality score is at least the success rate. *)
Theorem overview_rates_in_range `{PercentRounding} (now : Z)
    (rs : list ValidationResult) :
  let m := calculateOverviewMetrics now rs in
  0 <= successRate m <= 100
  /\ 0 <= failureRate m <= 100
  /\ 0 <= warningRate m <= 100
  /\ successRate m <= qualityScore m <= 100.
Proof. apply overview_rates_bounds. Qed.

Lemma totalValidations_length `{PercentRounding} (now : Z)
    (rs : list ValidationResult) :
  totalValidations (calculateOverviewMetrics now rs) = Z.of_nat (length rs).
Proof.
  destruct rs as [|r rs']; [reflexivity|].
  rewrite overview_nonempty by discriminate. reflexivity.
Qed.

(** X2. The total counts every record; the breakdown counts the
    records by status, and a record of any other status is in the
    total but in none of the three counts. *)
Theorem overview_counts `{PercentRounding} (now : Z) (rs : list ValidationResult) :
  let m := calculateOverviewMetrics now rs in
  totalValidations m = Z.of_nat (length rs)
  /\ match breakdown m with
     | Some b =>
         successful b + failed b + warnings b
         + Z.of_nat (length (filter (fun r => ~ knownStatus r) rs))
         = totalValidations m
     | None => rs = []
     end.
Proof.
  destruct rs as [|r rs'] eqn:Hrs; [simpl; auto|]. rewrite <- Hrs.
  assert (Hne : rs <> []) by (rewrite Hrs; discriminate).
  rewrite (overview_nonempty now rs Hne). simpl.
  split; [reflexivity|]. apply counts_and_others.
Qed.

Lemma countStatus_perm (s : string) (rs rs' : list ValidationResult) :
  rs ≡ₚ rs' -> countStatus s rs = countStatus s rs'.
Proof. intros Hp. unfold countStatus. rewrite Hp. reflexivity. Qed.

(** X3. Apart from the trend, the overview does not depend on the
    order of the records. *)
Theorem overview_order_independent `{PercentRounding} (now now' : Z)
    (rs rs' : list ValidationResult) :
  rs ≡ₚ rs' ->
  let m := calculateOverviewMetrics now rs in
  let m' := calculateOverviewMetrics now' rs' in
  totalValidations m = totalValidations m'
  /\ successRate m = successRate m'
  /\ failureRate m = failureRate m'
  /\ warningRate m = warningRate m'
  /\ qualityScore m = qualityScore m'
  /\ breakdown m = breakdown m'.
Proof.
  intros Hp.
  destruct rs as [|r rs0] eqn:Hrs.
  - apply Permutation_nil_l in Hp. subst rs'. simpl. auto 10.
  - rewrite <- Hrs in *.
    assert (Hne : rs <> []) by (rewrite Hrs; discriminate).
    assert (Hne' : rs' <> []).
    { intros ->. apply Permutation_nil_r in Hp. contradiction. }
    rewrite (overview_nonempty now rs Hne), (overview_nonempty now' rs' Hne'). simpl.
    rewrite !(countStatus_perm _ rs rs' Hp), (Permutation_length Hp).
    auto 10.
Qed.

(** ** Trend direction *)

Lemma sliceLast_length {A} (n : nat) (xs : list A) :
  (length (Js.sliceLast n xs) <= length xs)%nat.
Proof.
  unfold Js.sliceLast. destruct n; [lia|]. rewrite length_drop. lia.
Qed.

(** A trend other than stable needs at least 5 records at or after
    the cutoff and at least 5 records before it. *)
Lemma calculateTrend_windows (now : Z) (rs : list ValidationResult) (days : Z) :
  calculateTrend now rs days = stable
  \/ ((5 <= length (filter (fun r => dateGe r (now - days * msPerDay) = true) rs))%nat
      /\ (5 <= length (filter (fun r => dateLt r (now - days * msPerDay) = true) rs))%nat).
Proof.
  unfold calculateTrend.
  destruct (Z.of_nat (length rs) <? 10); [left; reflexivity|].
  set (recent := filter (fun r => dateGe r (now - days * msPerDay) = true) rs).
  set (older := filter (fun r => dateLt r (now - days * msPerDay) = true) rs).
  pose proof (sliceLast_length (length recent) older) as Hslice.
  destruct (Z.ltb_spec (Z.of_nat (length recent)) 5) as [|Hrecent];
    [left; reflexivity|].
  destruct (Z.ltb_spec (Z.of_nat (length (Js.sliceLast (length recent) older))) 5)
    as [|Hprevious]; [left; reflexivity|].
  right. lia.
Qed.

(** X4. With fewer than 10 records, or with fewer than 5 records on
    either side of the cutoff, the trend is stable. *)
Theorem calculateTrend_stable_when_sparse (now : Z) (rs : list ValidationResult)
    (days : Z) :
  (length rs < 10)%nat
  \/ (length (filter (fun r => dateGe r (now - days * msPerDay) = true) rs) < 5)%nat
  \/ (length (filter (fun r => dateLt r (now - days * msPerDay) = true) rs) < 5)%nat ->
  calculateTrend now rs days = stable.
Proof.
  intros Hsparse.
  destruct (calculateTrend_windows now rs days) as [Hstable|[Hrecent Holder]];
    [exact Hstable|].
  destruct Hsparse as [Hfew|[Hfew|Hfew]]; [|lia|lia].
  unfold calculateTrend.
  destruct (Z.ltb_spec (Z.of_nat (length rs)) 10); [reflexivity|lia].
Qed.

Lemma filter_nonempty_witness {A} (P : A -> Prop) `{forall x, Decision (P x)}
    (l : list A) :
  (0 < length (filter P l))%nat -> exists x, x ∈ l /\ P x.
Proof.
  intros Hlen. destruct (filter P l) as [|x xs] eqn:Hf; [simpl in Hlen; lia|].
  exists x. apply and_comm, (list_elem_of_filter P l x). rewrite Hf. left.
Qed.

(** The trend of one bucket: stable, unless the bucket holds records
    on both sides of the instant 7 days before [now]. *)
Lemma trendPoint_stable_or_straddles `{PercentRounding} (now : Z)
    (results : list ValidationResult) (daysPerPeriod i : Z) :
  let point := trendPoint now results daysPerPeriod i in
  trend (periodMetrics point) = stable
  \/ rangeStart point < now - 7 * msPerDay < rangeEnd point.
Proof.
  unfold trendPoint. simpl.
  set (periodEnd := now - i * msPerDay).
  set (periodStart := periodEnd - daysPerPeriod * msPerDay).
  set (periodResults := filter _ results).
  destruct periodResults as [|r0 rest] eqn:Hresults; [left; reflexivity|].
  rewrite <- Hresults.
  rewrite overview_nonempty by (rewrite Hresults; discriminate). simpl.
  destruct (calculateTrend_windows now periodResults 7) as [Hstable|[Hrecent Holder]];
    [left; exact Hstable|right].
  destruct (filter_nonempty_witness
              (fun r => dateGe r (now - 7 * msPerDay) = true) periodResults)
    as (r & Hr & Hge); [lia|].
  destruct (filter_nonempty_witness
              (fun r => dateLt r (now - 7 * msPerDay) = true) periodResults)
    as (r' & Hr' & Hlt); [lia|].
  subst periodResults.
  apply list_elem_of_filter in Hr as [Hin _].
  apply list_elem_of_filter in Hr' as [Hin' _].
  apply andb_prop in Hin as [_ Hbelow], Hin' as [Habove _].
  unfold dateGe, dateLt in *.
  destruct (timestamp r) as [t|]; [|discriminate].
  destruct (timestamp r') as [t'|]; [|discriminate].
  lia.
Qed.

Lemma trend_bucket_straddles `{PercentRounding} (now : Z)
    (results : list ValidationResult) (timeframe : Z) (point : TrendPoint) :
  point ∈ calculateTrendMetrics now results timeframe ->
  trend (periodMetrics point) = stable
  \/ rangeStart point < now - 7 * msPerDay < rangeEnd point.
Proof.
  unfold calculateTrendMetrics. intros Hin.
  apply list_elem_of_In, in_map_iff in Hin as (i & <- & _).
  apply trendPoint_stable_or_straddles.
Qed.

(** X5. Every trend bucket has the trend stable, except possibly the
    bucket whose period contains the instant 7 days before [now]. *)
Theorem trend_buckets_stable_off_cutoff `{PercentRounding} (now : Z)
    (results : list ValidationResult) (timeframe : Z) :
  Forall (fun point =>
            trend (periodMetrics point) = stable
            \/ rangeStart point < now - 7 * msPerDay < rangeEnd point)
         (calculateTrendMetrics now results timeframe).
Proof.
  apply Forall_forall. intros point Hin.
  apply (trend_bucket_straddles now results timeframe point Hin).
Qed.

(** Buckets do not overlap: a later bucket starts at or after the end
    of an earlier one. *)
Lemma calculateTrendMetrics_disjoint `{PercentRounding} (now : Z)
    (results : list ValidationResult) (timeframe : Z) (k k' : nat) (p q : TrendPoint) :
  (k < k')%nat ->
  calculateTrendMetrics now results timeframe !! k = Some p ->
  calculateTrendMetrics now results timeframe !! k' = Some q ->
  rangeEnd p <= rangeStart q.
Proof.
  intros Hlt Hp Hq.
  destruct (Z.lt_ge_cases timeframe 0) as [Hneg|Htf].
  - unfold calculateTrendMetrics in Hp. simpl in Hp.
    destruct (Z.leb_spec 0 timeframe); [lia|]. discriminate Hp.
  - rewrite calculateTrendMetrics_spec in Hp, Hq by assumption.
    change (@map) with (fun A B => @fmap list _ A B) in Hp, Hq. cbv beta in Hp, Hq.
    rewrite list_lookup_fmap in Hp, Hq.
    destruct (seq 0 _ !! k) as [a|] eqn:Ha; [|discriminate Hp].
    destruct (seq 0 _ !! k') as [b|] eqn:Hb; [|discriminate Hq].
    apply lookup_seq in Ha as [-> _]. apply lookup_seq in Hb as [-> _].
    simpl in Hp, Hq. injection Hp as <-. injection Hq as <-.
    pose proof (daysPerPeriodOf_pos timeframe).
    unfold trendPoint, msPerDay. simpl rangeStart. simpl rangeEnd. nia.
Qed.

(** X6. At most one trend bucket carries a trend other than stable. *)
Theorem trend_buckets_one_unstable `{PercentRounding} (now : Z)
    (results : list ValidationResult) (timeframe : Z) (k k' : nat) (p q : TrendPoint) :
  calculateTrendMetrics now results timeframe !! k = Some p ->
  calculateTrendMetrics now results timeframe !! k' = Some q ->
  trend (periodMetrics p) <> stable ->
  trend (periodMetrics q) <> stable ->
  k = k'.
Proof.
  intros Hp Hq Hup Huq.
  assert (Hstraddle : forall j pt,
             calculateTrendMetrics now results timeframe !! j = Some pt ->
             trend (periodMetrics pt) <> stable ->
             rangeStart pt < now - 7 * msPerDay < rangeEnd pt).
  { intros j pt Hj Hu.
    destruct (trend_bucket_straddles now results timeframe pt);
      [eapply list_elem_of_lookup_2; exact Hj | contradiction | assumption]. }
  pose proof (Hstraddle k p Hp Hup). pose proof (Hstraddle k' q Hq Huq).
  destruct (Nat.lt_trichotomy k k') as [Hlt|[Heq|Hgt]]; [|exact Heq|].
  - pose proof (calculateTrendMetrics_disjoint now results timeframe k k' p q Hlt Hp Hq).
    lia.
  - pose proof (calculateTrendMetrics_disjoint now results timeframe k' k q p Hgt Hq Hp).
    lia.
Qed.

(** ** Health calculator *)

(** What one rule of the health pass may do to the running state:
    leave it, add an indicator, or deduct between 1 and [limit] points
    while adding one indicator and one recommendation. *)
Inductive ruleStep (limit : Z) (acc acc' : HealthAcc) : Prop :=
| stepSkip : acc' = acc -> ruleStep limit acc acc'
| stepPraise (i : Indicator) : acc' = praise acc i -> ruleStep limit acc acc'
| stepDeduct (points : Z) (i : Indicator) (advice : string) :
    0 < points <= limit -> acc' = deduct acc points i advice ->
    ruleStep limit acc acc'.

Lemma successRateRule_step `{PercentRounding} (results : list ValidationResult)
    (acc : HealthAcc) :
  results <> [] -> ruleStep 70 acc (successRateRule results acc).
Proof.
  intros Hne. unfold successRateRule.
  set (rate := roundPercent _ _).
  assert (Hrate : 0 <= rate <= 100).
  { apply roundPercent_range.
    - destruct results; [congruence | simpl length; lia].
    - pose proof (countStatus_nonneg "success" results).
      pose proof (countStatus_le_length "success" results). lia. }
  destruct (Z.ltb_spec rate 70).
  - eapply stepDeduct; [|reflexivity]. lia.
  - destruct (95 <=? rate).
    + eapply stepPraise. reflexivity.
    + apply stepSkip. reflexivity.
Qed.

Lemma trendRule_step (now : Z) (results : list ValidationResult) (acc : HealthAcc) :
  ruleStep 15 acc (trendRule now results acc).
Proof.
  unfold trendRule. destruct (calculateTrend now results 7).
  - apply stepSkip. reflexivity.
  - eapply stepPraise. reflexivity.
  - eapply stepDeduct; [|reflexivity]. lia.
Qed.

Lemma diversityRule_step (results : list ValidationResult) (acc : HealthAcc) :
  ruleStep 5 acc (diversityRule results acc).
Proof.
  unfold diversityRule. destruct (_ && _)%bool.
  - eapply stepDeduct; [|reflexivity]. lia.
  - apply stepSkip. reflexivity.
Qed.

Lemma performanceRule_step (results : list ValidationResult) (acc : HealthAcc) :
  ruleStep 10 acc (performanceRule results acc).
Proof.
  unfold performanceRule. destruct (_ && _)%bool.
  - eapply stepDeduct; [|reflexivity]. lia.
  - apply stepSkip. reflexivity.
Qed.

(** The state that the health pass keeps: the points missing from
    100 are positive exactly when there is a recommendation, and no
    rule recommends without an indicator. *)
Definition healthInvariant (floor : Z) (rules : nat) (acc : HealthAcc) : Prop :=
  floor <= accScore acc <= 100
  /\ (accScore acc = 100 <-> accRecommendations acc = [])
  /\ (length (accRecommendations acc) <= length (accIndicators acc) <= rules)%nat.

Lemma ruleStep_invariant (limit floor : Z) (rules : nat) (acc acc' : HealthAcc) :
  0 <= limit ->
  ruleStep limit acc acc' ->
  healthInvariant floor rules acc ->
  healthInvariant (floor - limit) (S rules) acc'.
Proof.
  intros Hlimit Hstep (Hscore & Hiff & Hlen).
  destruct Hstep as [->| i -> | points i advice Hpoints ->];
    unfold healthInvariant, praise, deduct; simpl.
  - split; [lia|]. split; [exact Hiff|lia].
  - rewrite length_app. simpl. split; [lia|]. split; [exact Hiff|lia].
  - rewrite !length_app. simpl. split; [lia|]. split; [|lia]. split.
    + intros Heq. lia.
    + intros Hnil. apply app_eq_nil in Hnil as [_ Hnil]. discriminate Hnil.
Qed.

Lemma health_pass_invariant `{PercentRounding} (now : Z)
    (results : list ValidationResult) :
  results <> [] ->
  healthInvariant 0 4
    (performanceRule results
       (diversityRule results
          (trendRule now results
             (successRateRule results
                {| accScore := 100; accIndicators := []; accRecommendations := [] |})))).
Proof.
  intros Hne.
  assert (H0 : healthInvariant 100 0
                 {| accScore := 100; accIndicators := []; accRecommendations := [] |}).
  { unfold healthInvariant. simpl. repeat split; auto; lia. }
  pose proof (ruleStep_invariant 70 _ _ _ _ ltac:(lia)
                (successRateRule_step results _ Hne) H0) as H1.
  pose proof (ruleStep_invariant 15 _ _ _ _ ltac:(lia)
                (trendRule_step now results _) H1) as H2.
  pose proof (ruleStep_invariant 5 _ _ _ _ ltac:(lia)
                (diversityRule_step results _) H2) as H3.
  pose proof (ruleStep_invariant 10 _ _ _ _ ltac:(lia)
                (performanceRule_step results _) H3) as H4.
  exact H4.
Qed.

Lemma calculateHealthMetrics_nonempty `{PercentRounding} (now : Z)
    (results : list ValidationResult) :
  results <> [] ->
  calculateHealthMetrics now results =
  let acc :=
    performanceRule results
      (diversityRule results
         (trendRule now results
            (successRateRule results
               {| accScore := 100; accIndicators := []; accRecommendations := [] |}))) in
  {| overall := gradeOf (accScore acc);
     score := Z.max 0 (accScore acc);
     indicators := accIndicators acc;
     recommendations := accRecommendations acc;
     lastUpdate := Some now |}.
Proof.
  intros Hne. unfold calculateHealthMetrics.
  destruct results as [|r rs]; [congruence|].
  simpl length. rewrite Nat2Z.inj_succ.
  destruct (Z.eqb_spec (Z.succ (Z.of_nat (length rs))) 0); [lia|reflexivity].
Qed.

(** X7. The health score lies between 0 and 100, and the grade is the
    grade of the score reported, "unknown" for no records and for no
    records only. *)
Theorem health_score_and_grade `{PercentRounding} (now : Z)
    (results : list ValidationResult) :
  let h := calculateHealthMetrics now results in
  0 <= score h <= 100
  /\ overall h = (if decide (results = []) then unknown else gradeOf (score h))
  /\ (overall h = unknown <-> results = []).
Proof.
  destruct (decide (results = [])) as [->|Hne].
  - simpl. repeat split; auto; lia.
  - rewrite (calculateHealthMetrics_nonempty now results Hne). cbv zeta. simpl.
    destruct (health_pass_invariant now results Hne) as (Hscore & _ & _).
    rewrite Z.max_r by lia.
    repeat split; try lia.
    + intros Hu. unfold gradeOf in Hu.
      repeat (destruct (_ <? _) in Hu); discriminate Hu.
    + intros ->. congruence.
Qed.

(** X8. For a non-empty record set the score is 100 exactly when there
    is no recommendation, every recommendation comes with an
    indicator, and there are at most 4 indicators. *)
Theorem health_recommendations `{PercentRounding} (now : Z)
    (results : list ValidationResult) :
  results <> [] ->
  let h := calculateHealthMetrics now results in
  (score h = 100 <-> recommendations h = [])
  /\ (length (recommendations h) <= length (indicators h) <= 4)%nat
  /\ lastUpdate h = Some now.
Proof.
  intros Hne. rewrite (calculateHealthMetrics_nonempty now results Hne).
  cbv zeta. simpl.
  destruct (health_pass_invariant now results Hne) as (Hscore & Hiff & Hlen).
  rewrite Z.max_r by lia. auto.
Qed.

(** ** Performance calculator: order of the statistics *)

Lemma sum_from (a : Z) (xs : list Z) : foldl Z.add a xs = a + Js.sum xs.
Proof.
  unfold Js.sum. revert a. induction xs as [|x xs IH]; intros a; simpl; [lia|].
  rewrite (IH (a + x)), (IH (0 + x)). lia.
Qed.

Lemma sum_cons (x : Z) (xs : list Z) : Js.sum (x :: xs) = x + Js.sum xs.
Proof. unfold Js.sum at 1. simpl. rewrite sum_from. lia. Qed.

Lemma sum_app (xs ys : list Z) : Js.sum (xs ++ ys) = Js.sum xs + Js.sum ys.
Proof.
  induction xs as [|x xs IH]; simpl; [unfold Js.sum at 2; simpl; lia|].
  rewrite !sum_cons, IH. lia.
Qed.

Lemma sum_between (lo hi : Z) (xs : list Z) :
  Forall (fun t => lo <= t <= hi) xs ->
  lo * Z.of_nat (length xs) <= Js.sum xs <= hi * Z.of_nat (length xs).
Proof.
  induction 1 as [|x xs Hx _ IH]; [unfold Js.sum; simpl; lia|].
  rewrite sum_cons. simpl length. lia.
Qed.



Lemma roundDiv_between (lo hi a n : Z) :
  0 < n -> lo * n <= a <= hi * n -> lo <= Js.roundDiv a n <= hi.
Proof.
  intros Hn Ha. unfold Js.roundDiv. split.
  - apply Z.div_le_lower_bound; lia.
  - apply Z.lt_succ_r. apply Z.div_lt_upper_bound; lia.
Qed.




(** ** Performance calculator: independence of the order *)











(** ** Trend bucketizer: which records the buckets count *)

(** The number of records with [from <= timestamp < to]. *)
Definition countIn (results : list ValidationResult) (from to : Z) : Z :=
  Z.of_nat (length (periodResultsOf results from to)).

Lemma countIn_cons (r : ValidationResult) (rs : list ValidationResult) (from to : Z) :
  countIn (r :: rs) from to
  = (if (dateGe r from && dateLt r to)%bool then 1 else 0) + countIn rs from to.
Proof.
  unfold countIn, periodResultsOf. rewrite filter_cons.
  destruct (dateGe r from && dateLt r to)%bool;
    destruct (decide _); try congruence; simpl length; lia.
Qed.

Lemma countIn_split (results : list ValidationResult) (a b c : Z) :
  a <= b <= c ->
  countIn results a b + countIn results b c = countIn results a c.
Proof.
  intros Habc. induction results as [|r rs IH]; [reflexivity|].
  rewrite !countIn_cons. unfold dateGe, dateLt.
  destruct (timestamp r) as [t|]; simpl; [|exact IH].
  destruct (Z.leb_spec a t), (Z.ltb_spec t b), (Z.leb_spec b t), (Z.ltb_spec t c);
    simpl; lia.
Qed.

Lemma countIn_empty (results : list ValidationResult) (a : Z) : countIn results a a = 0.
Proof.
  induction results as [|r rs IH]; [reflexivity|].
  rewrite countIn_cons. unfold dateGe, dateLt.
  destruct (timestamp r) as [t|]; simpl; [|exact IH].
  destruct (Z.leb_spec a t), (Z.ltb_spec t a); simpl; lia.
Qed.

Lemma trendPoint_total `{PercentRounding} (now : Z) (results : list ValidationResult)
    (daysPerPeriod i : Z) :
  totalValidations (periodMetrics (trendPoint now results daysPerPeriod i))
  = countIn results (now - i * msPerDay - daysPerPeriod * msPerDay) (now - i * msPerDay).
Proof. unfold trendPoint. simpl. apply totalValidations_length. Qed.

Lemma bucket_totals_prefix `{PercentRounding} (now : Z) (results : list ValidationResult)
    (timeframe d : Z) (m : nat) :
  0 < d ->
  Js.sum (map (fun k => totalValidations
                          (periodMetrics
                             (trendPoint now results d (timeframe - Z.of_nat k * d))))
            (seq 0 m))
  = countIn results (now - (timeframe + d) * msPerDay)
      (now - (timeframe + d) * msPerDay + Z.of_nat m * (d * msPerDay)).
Proof.
  intros Hd. induction m as [|m IH].
  - simpl. rewrite Z.add_0_r, countIn_empty. reflexivity.
  - rewrite seq_S, map_app, sum_app, IH. cbn [map Nat.add]. rewrite sum_cons.
    rewrite trendPoint_total. unfold Js.sum at 1. cbn [foldl]. rewrite Z.add_0_r.
    replace (now - (timeframe - Z.of_nat m * d) * msPerDay - d * msPerDay)
      with (now - (timeframe + d) * msPerDay + Z.of_nat m * (d * msPerDay)) by lia.
    replace (now - (timeframe - Z.of_nat m * d) * msPerDay)
      with (now - (timeframe + d) * msPerDay + Z.of_nat (S m) * (d * msPerDay)) by lia.
    apply countIn_split. unfold msPerDay. lia.
Qed.

(** X11. Together the trend buckets count, each once, the records
    from [timeframe + daysPerPeriod] days before [now] up to
    [timeframe mod daysPerPeriod] days before [now], so that a
    timeframe which is not a multiple of the bucket width leaves the
    newest records out of every bucket. *)
Theorem trend_buckets_cover `{PercentRounding} (now : Z)
    (results : list ValidationResult) (timeframe : Z) :
  0 <= timeframe ->
  let d := daysPerPeriodOf timeframe in
  Js.sum (map (fun point => totalValidations (periodMetrics point))
            (calculateTrendMetrics now results timeframe))
  = countIn results (now - (timeframe + d) * msPerDay)
      (now - (timeframe mod d) * msPerDay).
Proof.
  intros Htf d. rewrite calculateTrendMetrics_spec by assumption. fold d.
  rewrite map_map.
  pose proof (daysPerPeriodOf_pos timeframe) as Hd. fold d in Hd.
  rewrite (bucket_totals_prefix now results timeframe d _ Hd).
  f_equal. pose proof (Z.div_pos timeframe d Htf Hd).
  rewrite Z2Nat.id by lia.
  rewrite (Z.mod_eq timeframe d) by lia. lia.
Qed.

(** ** Result accessor: what a load returns *)

Section AscendingBy.

Context {A : Type} (key : A -> Z) (cmp : A -> A -> Z).




End AscendingBy.

(** The records that one file contributes carry a timestamp and pass
    both filters. *)
Definition passesFilters (projectName : option string) (cutoffDate : option Z)
    (r : ValidationResult) : Prop :=
  is_Some (timestamp r)
  /\ (forall cutoff t, cutoffDate = Some cutoff -> timestamp r = Some t -> cutoff <= t)
  /\ (forall name, projectName = Some name -> name <> "" ->
        exists p, project r = Some p
                  /\ Js.includes (Js.toLowerCase p) (Js.toLowerCase name) = true).

Lemma ensureTimestamp_some (data : ValidationResult) (mtime : Z) :
  is_Some (timestamp (ensureTimestamp data mtime)).
Proof.
  unfold ensureTimestamp, Js.truthyNum.
  destruct (timestamp data) as [t|] eqn:Ht; simpl; [|eauto].
  destruct (t =? 0); simpl; [eauto | rewrite Ht; eauto].
Qed.

Lemma loadFile_passes (projectName : option string) (cutoffDate : option Z)
    (file : FileEntry) :
  Forall (passesFilters projectName cutoffDate) (loadFile projectName cutoffDate file).
Proof.
  unfold loadFile.
  destruct (readJson file) as [data0|]; simpl; [|constructor].
  destruct (statMtime file) as [mtime|]; simpl; [|constructor].
  set (data := ensureTimestamp data0 mtime).
  destruct (beforeCutoff cutoffDate data) eqn:Hcut; simpl; [constructor|].
  destruct (otherProject projectName data) eqn:Hother; simpl; constructor; [|constructor].
  split; [apply ensureTimestamp_some|]. split.
  - intros cutoff t -> Ht. unfold beforeCutoff, dateLt in Hcut. rewrite Ht in Hcut.
    apply Z.ltb_ge in Hcut. exact Hcut.
  - intros name -> Hname. unfold otherProject, Js.truthyStr in Hother.
    destruct (String.eqb_spec name ""); [contradiction|]. simpl in Hother.
    destruct (project data) as [p|]; [|discriminate Hother].
    exists p. split; [reflexivity|].
    apply orb_false_elim in Hother as [_ Hinc].
    apply negb_false_iff in Hinc. exact Hinc.
Qed.

Lemma loadFile_at_most_one (projectName : option string) (cutoffDate : option Z)
    (file : FileEntry) :
  (length (loadFile projectName cutoffDate file) <= 1)%nat.
Proof.
  unfold loadFile.
  destruct (readJson file); simpl; [|lia].
  destruct (statMtime file); simpl; [|lia].
  destruct (beforeCutoff _ _); simpl; [lia|].
  destruct (otherProject _ _); simpl; lia.
Qed.

(** The records loaded, before sorting. *)
Definition loadedFrom (projectName : option string) (cutoffDate : option Z)
    (files : list FileEntry) : list ValidationResult :=
  flat_map (loadFile projectName cutoffDate)
    (List.filter (fun f => Js.endsWith (fileName f) ".json") files).

Lemma loadValidationResults_returned (store : Store) (projectName : option string)
    (cutoffDate : option Z) (results : list ValidationResult) :
  loadValidationResults store projectName cutoffDate = Returned results ->
  exists files,
    readdir store = Returned files
    /\ results = Js.sortBy byTimestamp (loadedFrom projectName cutoffDate files).
Proof.
  unfold loadValidationResults.
  destruct (ensureDir store); simpl; [|discriminate].
  destruct (readdir store) as [files|]; simpl; [|discriminate].
  intros Heq. injection Heq as <-. eauto.
Qed.

Lemma loadedFrom_passes (projectName : option string) (cutoffDate : option Z)
    (files : list FileEntry) :
  Forall (passesFilters projectName cutoffDate) (loadedFrom projectName cutoffDate files).
Proof.
  unfold loadedFrom.
  induction (List.filter _ files) as [|f fs IH]; simpl; [constructor|].
  apply Forall_app. split; [apply loadFile_passes | exact IH].
Qed.

Lemma loadedFrom_length (projectName : option string) (cutoffDate : option Z)
    (files : list FileEntry) :
  (length (loadedFrom projectName cutoffDate files) <= length files)%nat.
Proof.
  unfold loadedFrom.
  induction files as [|f fs IH]; simpl; [lia|].
  destruct (Js.endsWith (fileName f) ".json"); simpl; [|lia].
  rewrite length_app. pose proof (loadFile_at_most_one projectName cutoffDate f). lia.
Qed.

(** X12. Every record that a load returns carries a timestamp; with a
    cutoff it is not older than the cutoff; with a non-empty project
    name its project contains that name, letter case aside.  There are
    no more records than directory entries. *)
Theorem load_returns_filtered (store : Store) (projectName : option string)
    (cutoffDate : option Z) (results : list ValidationResult) :
  loadValidationResults store projectName cutoffDate = Returned results ->
  Forall (passesFilters projectName cutoffDate) results
  /\ exists files,
       readdir store = Returned files /\ (length results <= length files)%nat.
Proof.
  intros Hload.
  apply loadValidationResults_returned in Hload as (files & Hfiles & ->).
  split.
  - rewrite sortBy_perm. apply loadedFrom_passes.
  - exists files. split; [exact Hfiles|].
    rewrite (Permutation_length (sortBy_perm _ _)). apply loadedFrom_length.
Qed.



(** A file that the loop passes over: not a JSON file, or one whose
    read or whose stat throws. *)
Definition skippedFile (file : FileEntry) : Prop :=
  Js.endsWith (fileName file) ".json" = false
  \/ (exists message, readJson file = Thrown message)
  \/ (exists message, statMtime file = Thrown message).

(** X14. A file that is not a JSON file, or that cannot be read, leaves
    the load as it is without that file: the other records are
    returned all the same. *)
Theorem load_skips_unreadable (before after : list FileEntry) (file : FileEntry)
    (projectName : option string) (cutoffDate : option Z) :
  skippedFile file ->
  loadValidationResults
    {| ensureDir := Returned tt; readdir := Returned (before ++ file :: after) |}
    projectName cutoffDate
  = loadValidationResults
      {| ensureDir := Returned tt; readdir := Returned (before ++ after) |}
      projectName cutoffDate.
Proof.
  intros Hskip. unfold loadValidationResults. simpl. f_equal. f_equal.
  rewrite !List.filter_app, !flat_map_app. f_equal. simpl.
  destruct (Js.endsWith (fileName file) ".json") eqn:Hjson; [|reflexivity].
  simpl. destruct Hskip as [Hno|[[message Hread]|[message Hstat]]].
  - congruence.
  - rewrite (loadFile_unreadable _ _ file message (or_introl Hread)). reflexivity.
  - rewrite (loadFile_unreadable _ _ file message (or_intror Hstat)). reflexivity.
Qed.

(** ** Comparative calculator: grouping by project *)

(** [projectGroups.get(name)] *)
Fixpoint groupOf (name : string) (groups : list (string * list ValidationResult))
  : option (list ValidationResult) :=
  match groups with
  | [] => None
  | (p, rs) :: rest => if String.eqb p name then Some rs else groupOf name rest
  end.

Lemma groupOf_addToGroup_same (name : string) (r : ValidationResult)
    (groups : list (string * list ValidationResult)) :
  groupOf name (addToGroup name r groups)
  = Some (default [] (groupOf name groups) ++ [r]).
Proof.
  induction groups as [|[p rs] rest IH]; simpl.
  - rewrite String.eqb_refl. reflexivity.
  - destruct (String.eqb_spec p name) as [->|Hne]; simpl.
    + rewrite String.eqb_refl. reflexivity.
    + destruct (String.eqb_spec p name); [contradiction|]. exact IH.
Qed.

Lemma groupOf_addToGroup_other (name other : string) (r : ValidationResult)
    (groups : list (string * list ValidationResult)) :
  other <> name ->
  groupOf other (addToGroup name r groups) = groupOf other groups.
Proof.
  intros Hne. induction groups as [|[p rs] rest IH]; simpl.
  - destruct (String.eqb_spec name other); [congruence|reflexivity].
  - destruct (String.eqb_spec p name) as [->|Hp]; simpl.
    + destruct (String.eqb_spec name other); [congruence|reflexivity].
    + destruct (String.eqb_spec p other); [reflexivity|exact IH].
Qed.

Ltac decide_in_goal H :=
  match goal with |- context [decide ?P] => destruct (decide P) as [H|H] end.

Lemma addToGroup_names (name : string) (r : ValidationResult)
    (groups : list (string * list ValidationResult)) :
  (addToGroup name r groups).*1
  = if decide (name ∈ groups.*1) then groups.*1 else groups.*1 ++ [name].
Proof.
  induction groups as [|[p rs] rest IH]; cbn [addToGroup].
  - reflexivity.
  - destruct (String.eqb_spec p name) as [->|Hp]; rewrite !fmap_cons; cbn [fst].
    + decide_in_goal Hn; [reflexivity|]. exfalso. apply Hn. left.
    + rewrite IH. decide_in_goal Hin; decide_in_goal Hin'; try reflexivity.
      * exfalso. apply Hin'. right. exact Hin.
      * exfalso. apply elem_of_cons in Hin' as [?|?]; [congruence|contradiction].
Qed.

Lemma groupByProject_snoc (allResults : list ValidationResult) (r : ValidationResult) :
  groupByProject (allResults ++ [r])
  = addToGroup (projectOf r) r (groupByProject allResults).
Proof. unfold groupByProject. rewrite foldl_app. reflexivity. Qed.

(** The records of one project, in the order of the load. *)
Definition recordsOf (name : string) (allResults : list ValidationResult)
  : list ValidationResult :=
  filter (fun r => projectOf r = name) allResults.

Lemma groupOf_names (name : string) (groups : list (string * list ValidationResult)) :
  is_Some (groupOf name groups) <-> name ∈ groups.*1.
Proof.
  induction groups as [|[p rs] rest IH]; simpl.
  - split; [intros [? H]; discriminate H | intros H; inversion H].
  - destruct (String.eqb_spec p name) as [->|Hp].
    + split; [intros _; left | eauto].
    + rewrite IH. split; [intros H; right; exact H|].
      intros H. apply elem_of_cons in H as [?|?]; [congruence|assumption].
Qed.

Lemma groupOf_elem (name : string) (rs : list ValidationResult)
    (groups : list (string * list ValidationResult)) :
  NoDup groups.*1 ->
  (name, rs) ∈ groups <-> groupOf name groups = Some rs.
Proof.
  induction groups as [|[p rs'] rest IH]; simpl; intros Hnd.
  - split; [intros H; inversion H | discriminate].
  - apply NoDup_cons in Hnd as [Hp Hnd].
    destruct (String.eqb_spec p name) as [->|Hne].
    + split.
      * intros H. apply elem_of_cons in H as [Heq|Hin]; [congruence|].
        exfalso. apply Hp. apply list_elem_of_fmap. exists (name, rs). auto.
      * intros [= ->]. left.
    + rewrite <- (IH Hnd). split.
      * intros H. apply elem_of_cons in H as [Heq|Hin]; [congruence|exact Hin].
      * intros H. right. exact H.
Qed.

(** The groups: one for every project name that occurs, holding the
    records of that name in the order of the load; no name twice. *)
Lemma groupByProject_spec (allResults : list ValidationResult) :
  NoDup (groupByProject allResults).*1
  /\ forall name,
       groupOf name (groupByProject allResults)
       = if decide (recordsOf name allResults = []) then None
         else Some (recordsOf name allResults).
Proof.
  induction allResults as [|r rs IH] using rev_ind.
  - split; [constructor|]. intros name. reflexivity.
  - destruct IH as [Hnd Hget]. rewrite groupByProject_snoc. split.
    + rewrite addToGroup_names. destruct (decide _) as [Hin|Hn]; [exact Hnd|].
      apply NoDup_app. split; [exact Hnd|]. split.
      * intros x Hx Hx'. apply list_elem_of_singleton in Hx'. subst x. contradiction.
      * apply NoDup_singleton.
    + intros name. unfold recordsOf in *. rewrite filter_app, filter_cons, filter_nil.
      destruct (decide (projectOf r = name)) as [Heq|Hne].
      * rewrite Heq. rewrite groupOf_addToGroup_same, Hget.
        destruct (decide (filter _ rs = [])) as [Hnil|Hsome];
          destruct (decide (_ ++ [r] = [])) as [Hnil'|_];
          try (apply app_eq_nil in Hnil' as [_ Hnil']; discriminate Hnil').
        -- rewrite Hnil. reflexivity.
        -- reflexivity.
      * rewrite groupOf_addToGroup_other by congruence. rewrite Hget, app_nil_r.
        reflexivity.
Qed.

(** ** Comparative calculator: the projects listed *)

Lemma compareProject_elem `{PercentRounding} (now : Z) (currentProject : option string)
    (groups : list (string * list ValidationResult)) (c : ProjectComparison) :
  c ∈ flat_map (compareProject now currentProject) groups <->
  exists name rs,
    (name, rs) ∈ groups /\ (5 <= length rs)%nat
    /\ c = {| cmpProject := name;
              isCurrent := isProject currentProject name;
              cmpOverview := calculateOverviewMetrics now rs;
              cmpAverageExecutionTime :=
                averageExecutionTime (calculatePerformanceMetrics rs);
              cmpTotalTestsExecuted :=
                totalTestsExecuted (calculatePerformanceMetrics rs);
              lastValidation := match last rs with
                                | Some r => timestamp r
                                | None => None
                                end |}.
Proof.
  rewrite list_elem_of_In, in_flat_map. split.
  - intros ([name rs] & Hin & Hc). exists name, rs.
    apply list_elem_of_In in Hin. split; [exact Hin|].
    unfold compareProject in Hc.
    destruct (Z.ltb_spec (Z.of_nat (length rs)) 5); [inversion Hc|].
    destruct Hc as [<-|[]]. split; [lia|reflexivity].
  - intros (name & rs & Hin & Hlen & ->). exists (name, rs).
    apply list_elem_of_In in Hin. split; [exact Hin|].
    unfold compareProject.
    destruct (Z.ltb_spec (Z.of_nat (length rs)) 5); [lia|]. left. reflexivity.
Qed.

Lemma compareProject_names `{PercentRounding} (now : Z) (currentProject : option string)
    (groups : list (string * list ValidationResult)) :
  NoDup groups.*1 ->
  NoDup (map cmpProject (flat_map (compareProject now currentProject) groups)).
Proof.
  induction groups as [|[name rs] rest IH]; simpl; intros Hnd; [constructor|].
  apply NoDup_cons in Hnd as [Hname Hnd].
  rewrite map_app. apply NoDup_app. split; [|split; [|apply IH, Hnd]].
  - destruct (Z.of_nat (length rs) <? 5); simpl; [constructor|apply NoDup_singleton].
  - intros x Hx Hx'.
    assert (x = name) as ->.
    { destruct (Z.of_nat (length rs) <? 5); simpl in Hx; [inversion Hx|].
      apply list_elem_of_singleton in Hx. exact Hx. }
    apply list_elem_of_In, in_map_iff in Hx' as (c & Hc & Hin).
    apply list_elem_of_In, compareProject_elem in Hin as (n & rs' & Hin & _ & ->).
    simpl in Hc. subst n. apply Hname.
    apply list_elem_of_fmap. exists (name, rs'). auto.
Qed.

(** X15. The projects ranked are exactly the project names with at
    least 5 records among all the records given; no name is listed
    twice, and each entry counts the records of its name. *)
Theorem rankedProjects_characterized `{PercentRounding} (now : Z)
    (currentProject : option string) (allResults : list ValidationResult) :
  let ranked := rankedProjects now currentProject allResults in
  NoDup (map cmpProject ranked)
  /\ (forall name,
         name ∈ map cmpProject ranked <->
         (5 <= length (recordsOf name allResults))%nat)
  /\ Forall (fun c =>
               totalValidations (cmpOverview c)
               = Z.of_nat (length (recordsOf (cmpProject c) allResults))
               /\ isCurrent c = isProject currentProject (cmpProject c))
            ranked.
Proof.
  destruct (groupByProject_spec allResults) as [Hnd Hget].
  unfold rankedProjects.
  set (listed := flat_map (compareProject now currentProject) (groupByProject allResults)).
  assert (Hperm : Js.sortBy byQualityDesc listed ≡ₚ listed) by apply sortBy_perm.
  assert (Hgroup : forall name rs,
             (name, rs) ∈ groupByProject allResults ->
             rs = recordsOf name allResults).
  { intros name rs Hin. apply (groupOf_elem _ _ _ Hnd) in Hin.
    rewrite Hget in Hin. destruct (decide _); congruence. }
  split; [|split].
  - rewrite Hperm. apply compareProject_names, Hnd.
  - intros name. rewrite Hperm. split.
    + intros Hin. apply list_elem_of_In, in_map_iff in Hin as (c & Hc & Hin).
      apply list_elem_of_In, compareProject_elem in Hin as (n & rs & Hin & Hlen & ->).
      simpl in Hc. subst n. rewrite <- (Hgroup _ _ Hin). exact Hlen.
    + intros Hlen.
      assert (Hin : (name, recordsOf name allResults) ∈ groupByProject allResults).
      { apply (groupOf_elem _ _ _ Hnd). rewrite Hget.
        destruct (decide _) as [Hnil|_]; [|reflexivity].
        rewrite Hnil in Hlen. simpl in Hlen. lia. }
      apply list_elem_of_In, in_map_iff. eexists. split; [|apply list_elem_of_In].
      2: { apply compareProject_elem. exists name, (recordsOf name allResults). eauto. }
      reflexivity.
  - rewrite Hperm. apply Forall_forall. intros c Hin.
    apply compareProject_elem in Hin as (n & rs & Hin & Hlen & ->). simpl.
    rewrite <- (Hgroup _ _ Hin). split; [|reflexivity].
    apply totalValidations_length.
Qed.

(** ** Comparative calculator: the industry average *)

Lemma averageOf_between (f : ProjectComparison -> Z) (lo hi : Z)
    (comparisons : list ProjectComparison) :
  comparisons <> [] ->
  Forall (fun c => lo <= f c <= hi) comparisons ->
  lo <= averageOf f comparisons <= hi.
Proof.
  intros Hne Hall. unfold averageOf.
  assert (Hlen : 0 < Z.of_nat (length comparisons))
    by (destruct comparisons; [congruence | simpl length; lia]).
  destruct (Z.ltb_spec 0 (Z.of_nat (length comparisons))); [|lia].
  apply roundDiv_between; [exact Hlen|].
  rewrite <- (length_map f). apply sum_between.
  apply Forall_map. exact Hall.
Qed.

(** X16. When the load of all records returns, the comparative result
    lists the ranked projects and counts them; the industry average
    of the quality score lies between any two bounds that hold for
    the quality score of every listed project, so between 0 and 100,
    and it is 0 when no project is listed. *)
Theorem comparative_industry_average `{PercentRounding} (now : Z) (store : Store)
    (currentResults allResults : list ValidationResult)
    (currentProject : option string) :
  loadValidationResults store None None = Returned allResults ->
  exists m,
    calculateComparativeMetrics now store currentResults currentProject = Returned m
    /\ projects m = rankedProjects now currentProject allResults
    /\ totalProjects m = Z.of_nat (length (projects m))
    /\ (projects m = [] ->
        avgQualityScore (industryAverage m) = 0 /\ avgSuccessRate (industryAverage m) = 0)
    /\ (forall lo hi,
          projects m <> [] ->
          Forall (fun c => lo <= qualityScore (cmpOverview c) <= hi) (projects m) ->
          lo <= avgQualityScore (industryAverage m) <= hi)
    /\ 0 <= avgQualityScore (industryAverage m) <= 100
    /\ 0 <= avgSuccessRate (industryAverage m) <= 100.
Proof.
  intros Hload. unfold calculateComparativeMetrics. rewrite Hload. simpl.
  eexists. split; [reflexivity|]. simpl.
  set (ranked := rankedProjects now currentProject allResults).
  assert (Hrange : Forall (fun c => 0 <= qualityScore (cmpOverview c) <= 100
                                    /\ 0 <= successRate (cmpOverview c) <= 100) ranked).
  { apply Forall_forall. intros c Hin. unfold ranked, rankedProjects in Hin.
    rewrite sortBy_perm in Hin.
    apply compareProject_elem in Hin as (n & rs & _ & _ & ->). simpl.
    pose proof (overview_rates_bounds now rs) as (Hs & _ & _ & Hq). lia. }
  split; [reflexivity|]. split; [reflexivity|]. split; [|split; [|split]].
  - intros ->. split; reflexivity.
  - intros lo hi Hne Hall. apply averageOf_between; assumption.
  - destruct ranked as [|c cs] eqn:Hranked; [unfold averageOf; simpl; lia|].
    apply averageOf_between; [discriminate|].
    eapply Forall_impl; [exact Hrange|]. intros ? [? _]. assumption.
  - destruct ranked as [|c cs] eqn:Hranked; [unfold averageOf; simpl; lia|].
    apply averageOf_between; [discriminate|].
    eapply Forall_impl; [exact Hrange|]. intros ? [_ ?]. assumption.
Qed.

(** ** Cache: keys *)

(** The scope that a request is cached under: [projectName || 'global']. *)
Definition scopeOf (projectName : option string) : string :=
  default "global" (Js.orStr projectName (Some "global")).

Lemma cacheKeyOf_scope (projectName : option string) (timeframe : Z) :
  cacheKeyOf projectName timeframe
  = "quality-" +:+ scopeOf projectName +:+ "-" +:+ pretty timeframe.
Proof. reflexivity. Qed.

(** Strings of decimal digits. *)
Fixpoint allDigits (s : string) : Prop :=
  match s with
  | EmptyString => True
  | String c s' => c <> "-"%char /\ allDigits s'
  end.

Lemma pretty_N_char_no_dash (x : N) : pretty_N_char x <> "-"%char.
Proof. unfold pretty_N_char. repeat case_match; discriminate. Qed.

Lemma pretty_N_go_digits (x : N) (s : string) :
  allDigits s -> allDigits (pretty_N_go x s).
Proof.
  revert s. induction (N.lt_wf_0 x) as [x _ IH]; intros s Hs.
  destruct (decide (0 < x)%N) as [Hpos|Hzero].
  - rewrite pretty_N_go_step by exact Hpos.
    apply IH; [apply N.div_lt; lia|]. split; [apply pretty_N_char_no_dash | exact Hs].
  - assert (x = 0%N) as -> by lia. rewrite pretty_N_go_0. exact Hs.
Qed.

Lemma pretty_Z_digits (timeframe : Z) :
  0 <= timeframe -> allDigits (pretty timeframe).
Proof.
  intros Htf. destruct timeframe as [|p|p]; [| |lia].
  - simpl. split; [discriminate|exact I].
  - unfold pretty, pretty_Z, pretty, pretty_N.
    destruct (decide (N.pos p = 0%N)); [discriminate|].
    apply pretty_N_go_digits. exact I.
Qed.

Lemma allDigits_no_dash (a b : string) : ~ allDigits (a +:+ String "-" b).
Proof.
  induction a as [|c a IH]; simpl.
  - intros [Hc _]. congruence.
  - intros [_ Hrest]. apply IH, Hrest.
Qed.

(** A scope, a dash and a string of digits determine the scope and
    the digits. *)
Lemma scope_dash_digits_inj (s1 s2 d1 d2 : string) :
  allDigits d1 -> allDigits d2 ->
  s1 +:+ String "-" d1 = s2 +:+ String "-" d2 ->
  s1 = s2 /\ d1 = d2.
Proof.
  intros Hd1 Hd2. revert s2. induction s1 as [|c s1 IH]; intros [|c' s2]; simpl;
    intros Heq.
  - injection Heq as ->. auto.
  - injection Heq as _ ->. exfalso. exact (allDigits_no_dash _ _ Hd1).
  - injection Heq as _ <-. exfalso. exact (allDigits_no_dash _ _ Hd2).
  - injection Heq as -> Hrest. destruct (IH s2 Hrest) as [-> ->]. auto.
Qed.

(** X17. For timeframes that are not negative, two requests share a
    cache key only if they have the same scope and the same
    timeframe. *)
Theorem cacheKeyOf_injective (project1 project2 : option string)
    (timeframe1 timeframe2 : Z) :
  0 <= timeframe1 -> 0 <= timeframe2 ->
  cacheKeyOf project1 timeframe1 = cacheKeyOf project2 timeframe2 ->
  scopeOf project1 = scopeOf project2 /\ timeframe1 = timeframe2.
Proof.
  intros Htf1 Htf2. rewrite !cacheKeyOf_scope. intros Heq.
  simpl in Heq. injection Heq as Heq.
  apply scope_dash_digits_inj in Heq as [Hscope Hpretty];
    [|apply pretty_Z_digits; assumption..].
  split; [exact Hscope|]. apply (inj pretty). exact Hpretty.
Qed.

(** The scope of a request: the project name, and "global" for no
    name and for the empty name. *)
Lemma scopeOf_cases (projectName : option string) :
  scopeOf projectName
  = match projectName with
    | Some name => if decide (name = "") then "global" else name
    | None => "global"
    end.
Proof.
  unfold scopeOf, Js.orStr, Js.truthyStr.
  destruct projectName as [name|]; [|reflexivity].
  destruct (String.eqb_spec name ""), (decide (name = "")); simpl; congruence.
Qed.

(** ** Cache: what a call changes *)

Section CacheFacts.

Context `{PercentRounding} {PatternMetrics : Type}.
Variable calculatePatternMetrics : Store -> list ValidationResult -> PatternMetrics.

(** X18. A call changes at most the cache entry of its own key: the
    entries of all other keys, and the timeout, stay as they are. *)
Theorem calculateQualityMetrics_other_keys (this : MetricsService PatternMetrics)
    (now : Z) (store : Store) (projectName : option string) (timeframe : Z)
    (otherKey : string) :
  otherKey <> cacheKeyOf projectName timeframe ->
  let after :=
    (calculateQualityMetrics calculatePatternMetrics this now store projectName
       timeframe).2 in
  metricsCache after !! otherKey = metricsCache this !! otherKey
  /\ cacheTimeout after = cacheTimeout this.
Proof.
  intros Hother. unfold calculateQualityMetrics.
  destruct (cachedSnapshot this now _); [auto|].
  destruct (computeSnapshot _ now store projectName timeframe); simpl; [|auto].
  split; [|reflexivity]. apply lookup_insert_ne. congruence.
Qed.

(** X19. Requests without a project name, with the empty name and with
    the name "global" share one cache entry: what a call without
    project name returned is what a request for the project "global"
    gets while the entry is less than 300 000 ms old, whatever the
    store holds for that project. *)
Theorem global_scope_shared (this this' : MetricsService PatternMetrics)
    (now : Z) (store : Store) (timeframe : Z) (metrics : MetricsSnapshot PatternMetrics) :
  cacheTimeout this = 300000 ->
  calculateQualityMetrics calculatePatternMetrics this now store None timeframe
  = (Returned metrics, this') ->
  exists entry,
    metricsCache this' !! cacheKeyOf None timeframe = Some entry
    /\ data entry = metrics
    /\ forall now' store' name,
        name = "global" \/ name = "" ->
        now' - computedAt entry < 300000 ->
        calculateQualityMetrics calculatePatternMetrics this' now' store' (Some name)
          timeframe
        = (Returned metrics, this').
Proof.
  intros Htimeout Hcall.
  assert (Htimeout' : cacheTimeout this' = 300000).
  { rewrite <- Htimeout.
    rewrite <- (calculateQualityMetrics_timeout calculatePatternMetrics this now store
                  None timeframe).
    rewrite Hcall. reflexivity. }
  destruct (calculateQualityMetrics_repeat calculatePatternMetrics this this' now store
              None timeframe metrics Htimeout Hcall) as (entry & Hlook & Hdata & _).
  exists entry. split; [exact Hlook|]. split; [exact Hdata|].
  intros now' store' name Hname Hfresh. rewrite <- Hdata.
  apply calculateQualityMetrics_hit; [|lia].
  destruct Hname as [-> | ->]; exact Hlook.
Qed.

(** X20. After [clearCache] no request is served from the cache: the
    next call recomputes and, when the recomputation returns, its
    snapshot is the only entry. *)
Theorem clearCache_forces_recomputation (this : MetricsService PatternMetrics)
    (now : Z) (store : Store) (projectName : option string) (timeframe : Z) :
  calculateQualityMetrics calculatePatternMetrics (clearCache this) now store
    projectName timeframe
  = match computeSnapshot calculatePatternMetrics now store projectName timeframe with
    | Returned metrics =>
        (Returned metrics,
         {| metricsCache :=
              {[ cacheKeyOf projectName timeframe :=
                   {| data := metrics; computedAt := now |} ]};
            cacheTimeout := cacheTimeout this |})
    | Thrown message =>
        (Thrown ("Failed to calculate quality metrics: " +:+ message), clearCache this)
    end.
Proof.
  unfold calculateQualityMetrics, cachedSnapshot, clearCache. simpl.
  rewrite lookup_empty.
  destruct (computeSnapshot _ now store projectName timeframe); reflexivity.
Qed.

End CacheFacts.

(** ** Stability of the sort *)

Lemma insertBy_ext {A} (cmp cmp' : A -> A -> Z) (x : A) (xs : list A) :
  (forall a b, cmp a b = cmp' a b) -> Js.insertBy cmp x xs = Js.insertBy cmp' x xs.
Proof.
  intros Hext. induction xs as [|y ys IH]; simpl; [reflexivity|].
  rewrite Hext, IH. reflexivity.
Qed.

Lemma sortBy_ext {A} (cmp cmp' : A -> A -> Z) (xs : list A) :
  (forall a b, cmp a b = cmp' a b) -> Js.sortBy cmp xs = Js.sortBy cmp' xs.
Proof.
  intros Hext. induction xs as [|x xs IH]; simpl; [reflexivity|].
  rewrite IH. apply insertBy_ext, Hext.
Qed.

Section Stable.

Context {A : Type} (key : A -> Z) (tie : A -> A -> Prop).

(** [a] may stand before [b]: its key is smaller, or the keys are
    equal and the tie relation holds. *)
Definition ascendingThen (a b : A) : Prop :=
  key a < key b \/ (key a = key b /\ tie a b).

Lemma insertBy_stable (x : A) (xs : list A) :
  Forall (fun y => key x = key y -> tie x y) xs ->
  StronglySorted ascendingThen xs ->
  StronglySorted ascendingThen (Js.insertBy (fun a b => key a - key b) x xs).
Proof.
  intros Hties Hsorted. induction Hsorted as [|y ys Hsorted IH Hy]; simpl.
  - repeat constructor.
  - apply Forall_cons in Hties as [Hty Hties].
    destruct (Z.leb_spec (key x - key y) 0) as [Hle|Hgt].
    + constructor; [constructor; assumption|].
      constructor.
      * unfold ascendingThen. destruct (Z.eq_dec (key x) (key y)); [right; auto|left; lia].
      * apply Forall_forall. intros z Hz.
        rewrite Forall_forall in Hy, Hties. specialize (Hy z Hz). specialize (Hties z Hz).
        unfold ascendingThen in *.
        destruct (Z.eq_dec (key x) (key z)); [right; auto|left; lia].
    + constructor; [apply IH, Hties|].
      rewrite insertBy_perm. constructor; [left; lia | exact Hy].
Qed.

(** A sort by ascending key keeps the elements of equal key in the
    order they had. *)
Lemma sortBy_stable (xs : list A) :
  StronglySorted (fun a b => key a = key b -> tie a b) xs ->
  StronglySorted ascendingThen (Js.sortBy (fun a b => key a - key b) xs).
Proof.
  induction 1 as [|x xs Hsorted IH Hx]; simpl; [constructor|].
  apply insertBy_stable; [|exact IH].
  rewrite sortBy_perm. exact Hx.
Qed.

End Stable.

Lemma StronglySorted_impl {A} (R R' : A -> A -> Prop) (xs : list A) :
  (forall a b, R a b -> R' a b) -> StronglySorted R xs -> StronglySorted R' xs.
Proof.
  intros Himpl. induction 1 as [|x xs Hsorted IH Hx]; constructor; [exact IH|].
  eapply Forall_impl; [exact Hx|]. intros b. apply Himpl.
Qed.

(** The same for a sort by descending key. *)
Lemma sortBy_stable_descending {A} (key : A -> Z) (tie : A -> A -> Prop) (xs : list A) :
  StronglySorted (fun a b => key a = key b -> tie a b) xs ->
  StronglySorted (fun a b => key b < key a \/ (key a = key b /\ tie a b))
    (Js.sortBy (fun a b => key b - key a) xs).
Proof.
  intros Hsorted.
  rewrite (sortBy_ext _ (fun a b => (fun c => - key c) a - (fun c => - key c) b))
    by (intros; lia).
  eapply StronglySorted_impl; [|apply (sortBy_stable (fun c => - key c) tie)].
  - unfold ascendingThen. intros a b [Hlt|[Heq Ht]];
      [left; lia|right; split; [lia|exact Ht]].
  - eapply StronglySorted_impl; [|exact Hsorted]. intros a b Hab Heq. apply Hab. lia.
Qed.

Lemma StronglySorted_take {A} (R : A -> A -> Prop) (n : nat) (xs : list A) :
  StronglySorted R xs -> StronglySorted R (take n xs).
Proof.
  intros Hsorted. revert n. induction Hsorted as [|x xs Hsorted IH Hx]; intros [|n];
    simpl; try constructor.
  - apply IH.
  - apply Forall_take. exact Hx.
Qed.

Lemma StronglySorted_filter {A} (R : A -> A -> Prop) (f : A -> bool) (xs : list A) :
  StronglySorted R xs -> StronglySorted R (List.filter f xs).
Proof.
  induction 1 as [|x xs Hsorted IH Hx]; simpl; [constructor|].
  destruct (f x); [|exact IH]. constructor; [exact IH|].
  apply Forall_forall. intros y Hy. apply list_elem_of_In, filter_In in Hy as [Hy _].
  rewrite Forall_forall in Hx. apply Hx, list_elem_of_In, Hy.
Qed.

Lemma elem_of_take_list {A} (n : nat) (xs : list A) (x : A) :
  x ∈ take n xs -> x ∈ xs.
Proof.
  intros Hin. rewrite <- (take_drop n xs). apply elem_of_app. left. exact Hin.
Qed.

Lemma elem_of_drop_list {A} (n : nat) (xs : list A) (x : A) :
  x ∈ drop n xs -> x ∈ xs.
Proof.
  intros Hin. rewrite <- (take_drop n xs). apply elem_of_app. right. exact Hin.
Qed.

(** In a sorted list every element of a prefix may stand before
    every element of the rest. *)
Lemma StronglySorted_take_drop {A} (R : A -> A -> Prop) (n : nat) (xs : list A)
    (a b : A) :
  StronglySorted R xs -> a ∈ take n xs -> b ∈ drop n xs -> R a b.
Proof.
  intros Hsorted. revert n. induction Hsorted as [|x xs Hsorted IH Hx]; intros [|n];
    simpl; intros Ha Hb; try solve [inversion Ha].
  apply elem_of_cons in Ha as [->|Ha].
  - rewrite Forall_forall in Hx. apply Hx. eapply elem_of_drop_list. exact Hb.
  - eapply IH; eassumption.
Qed.

(** * Pattern effectiveness calculator *)

(** ** Pattern library statistics *)

(** What [getPatternLibraryStats] reads of one library file: whether
    the path exists and what [fs.readJson] gives.  Of the JSON it
    reads [patterns] and [version]: [patternsLength] is [None] when
    [patterns] is missing or falsy, [Some None] when it is there
    without a numeric [length], [Some (Some n)] for an array of [n]
    patterns. *)
Record LibraryJson := {
  patternsLength : option (option Z);
  libraryVersion : option string
}.

Record LibraryFile := {
  pathExists : bool;
  readLibrary : Outcome LibraryJson
}.

Record LibraryFiles := {
  universalFile : LibraryFile;
  backendFile : LibraryFile;
  frontendFile : LibraryFile
}.

(** [{ count, version }]; a count that is [undefined] is [None]. *)
Record LibraryStat := {
  libraryCount : option Z;
  libraryStatVersion : string
}.

(** [total] is [None] when the sum is [NaN]. *)
Record LibraryStats := {
  universalStat : LibraryStat;
  backendStat : LibraryStat;
  frontendStat : LibraryStat;
  libraryTotal : option Z
}.

Definition defaultStat : LibraryStat :=
  {| libraryCount := Some 0; libraryStatVersion := "0.0.0" |}.

(** [{ count: lib.patterns ? lib.patterns.length : 0,
       version: lib.version || '0.0.0' }] *)
Definition statOf (library : LibraryJson) : LibraryStat :=
  {| libraryCount := match patternsLength library with
                     | Some len => len
                     | None => Some 0
                     end;
     libraryStatVersion :=
       default "0.0.0" (Js.orStr (libraryVersion library) (Some "0.0.0")) |}.

(** One of the three blocks of the [try]: the statistics of the
    library when its file exists and is read, the default when the
    file does not exist, the error when the read throws. *)
Definition readStat (file : LibraryFile) : Outcome LibraryStat :=
  if pathExists file
  then await library <- readLibrary file; Returned (statOf library)
  else Returned defaultStat.

(** [a + b] on numbers that may be [undefined]: the sum is [NaN] then. *)
Definition addCounts (a b : option Z) : option Z :=
  match a, b with
  | Some x, Some y => Some (x + y)
  | _, _ => None
  end.

Definition getPatternLibraryStats (files : LibraryFiles) : LibraryStats :=
  match readStat (universalFile files) with
  | Thrown _ =>
      {| universalStat := defaultStat; backendStat := defaultStat;
         frontendStat := defaultStat; libraryTotal := Some 0 |}
  | Returned universal =>
      match readStat (backendFile files) with
      | Thrown _ =>
          {| universalStat := universal; backendStat := defaultStat;
             frontendStat := defaultStat; libraryTotal := Some 0 |}
      | Returned backend =>
          match readStat (frontendFile files) with
          | Thrown _ =>
              {| universalStat := universal; backendStat := backend;
                 frontendStat := defaultStat; libraryTotal := Some 0 |}
          | Returned frontend =>
              {| universalStat := universal; backendStat := backend;
                 frontendStat := frontend;
                 libraryTotal :=
                   addCounts (addCounts (libraryCount universal) (libraryCount backend))
                     (libraryCount frontend) |}
          end
      end
  end.

Definition isReturned {A} (o : Outcome A) : bool :=
  match o with
  | Returned _ => true
  | Thrown _ => false
  end.

(** Every library file is missing or is read. *)
Definition allRead (files : LibraryFiles) : bool :=
  isReturned (readStat (universalFile files))
  && isReturned (readStat (backendFile files))
  && isReturned (readStat (frontendFile files)).

(** X21. The total of the library statistics is the sum of the three
    counts when every library file is missing or read, and 0 as soon
    as one read throws: when the universal library is read and the
    read of the backend library throws, the universal count is kept,
    the frontend library is not read, and the total is 0. *)
Theorem libraryStats_total (files : LibraryFiles) :
  let stats := getPatternLibraryStats files in
  libraryTotal stats
  = (if allRead files
     then addCounts (addCounts (libraryCount (universalStat stats))
                       (libraryCount (backendStat stats)))
            (libraryCount (frontendStat stats))
     else Some 0)
  /\ forall universal message,
       readStat (universalFile files) = Returned universal ->
       readStat (backendFile files) = Thrown message ->
       stats = {| universalStat := universal; backendStat := defaultStat;
                  frontendStat := defaultStat; libraryTotal := Some 0 |}.
Proof.
  unfold getPatternLibraryStats, allRead. cbv zeta. split.
  - destruct (readStat (universalFile files)) as [u|]; simpl; [|reflexivity].
    destruct (readStat (backendFile files)) as [b|]; simpl; [|reflexivity].
    destruct (readStat (frontendFile files)) as [f|]; reflexivity.
  - intros universal message -> ->. reflexivity.
Qed.

(** ** Pattern usage statistics *)

Section PatternEffectiveness.

Context `{PercentRounding}.

(** The declared confidence of a pattern is a double, and so is its
    running average; both are parameters here: [confidenceOf p] is
    [p.confidence || 0], and [averageIn old n sample] is
    [((old * (n - 1)) + sample) / n]. *)
Variable Confidence : Type.
Variable confidenceOf : Pattern -> Confidence.
Variable averageIn : Confidence -> Z -> Confidence -> Confidence.

(** A value of the map [patternStats]; its key is [statName]. *)
Record PatternStat := {
  statName : string;
  usage : Z;
  successes : Z;
  failures : Z;
  statWarnings : Z;
  confidence : Confidence;
  statScope : string
}.

(** [pattern.name || pattern.type || 'unknown'] *)
Definition patternKey (p : Pattern) : string :=
  default "unknown" (Js.orStr (Js.orStr (patName p) (patType p)) (Some "unknown")).

(** The entry set for a key that [patternStats] does not have. *)
Definition newStat (p : Pattern) : PatternStat :=
  {| statName := patternKey p; usage := 0; successes := 0; failures := 0;
     statWarnings := 0; confidence := confidenceOf p;
     statScope := default "universal" (Js.orStr (patScope p) (Some "universal")) |}.

Definition oneIf (status expected : string) : Z :=
  if String.eqb status expected then 1 else 0.

(** [stats.usage++], the [switch] on the status of the record and the
    update of the average confidence. *)
Definition bump (status : string) (p : Pattern) (st : PatternStat) : PatternStat :=
  {| statName := statName st;
     usage := usage st + 1;
     successes := successes st + oneIf status "success";
     failures := failures st + oneIf status "failure";
     statWarnings := statWarnings st + oneIf status "warning";
     confidence := averageIn (confidence st) (usage st + 1) (confidenceOf p);
     statScope := statScope st |}.

(** One pattern of one record: its entry is created when missing, then
    updated in place. *)
Fixpoint recordPattern (status : string) (p : Pattern) (stats : list PatternStat)
  : list PatternStat :=
  match stats with
  | [] => [bump status p (newStat p)]
  | st :: rest =>
      if String.eqb (statName st) (patternKey p)
      then bump status p st :: rest
      else st :: recordPattern status p rest
  end.

Definition recordResult (stats : list PatternStat) (r : ValidationResult)
  : list PatternStat :=
  foldl (fun stats p => recordPattern (status r) p stats) stats (patterns r).

Definition patternStatsOf (results : list ValidationResult) : list PatternStat :=
  foldl recordResult [] results.

(** [{ ...stats, effectiveness, successRate }] *)
Record PatternMetric := {
  stat : PatternStat;
  effectiveness : Z;
  patternSuccessRate : Z
}.

Definition metricOf (st : PatternStat) : PatternMetric :=
  {| stat := st;
     effectiveness :=
       if 0 <? usage st
       then roundPercent (2 * successes st + statWarnings st) (usage st)
       else 0;
     patternSuccessRate :=
       if 0 <? usage st then roundPercent (2 * successes st) (usage st) else 0 |}.

Record PatternMetricsResult := {
  patternUsage : list PatternMetric;
  mostEffective : list PatternMetric;
  leastEffective : list PatternMetric;
  libraryStats : LibraryStats;
  totalPatterns : Z;
  averageEffectiveness : Z
}.

Definition usageOf (m : PatternMetric) : Z := usage (stat m).

(** The array [patternMetrics] is sorted in place: first by usage,
    then, for [mostEffective], by effectiveness; [leastEffective]
    filters the array in that last order and sorts the copy. *)
Definition calculatePatternMetrics (files : LibraryFiles)
    (results : list ValidationResult) : PatternMetricsResult :=
  let patternMetrics := map metricOf (patternStatsOf results) in
  let libraryStats := getPatternLibraryStats files in
  let byUsage := Js.sortBy (fun a b => usageOf b - usageOf a) patternMetrics in
  let byEffectiveness :=
    Js.sortBy (fun a b => effectiveness b - effectiveness a) byUsage in
  {| patternUsage := take 20 byUsage;
     mostEffective := take 10 byEffectiveness;
     leastEffective :=
       take 5 (Js.sortBy (fun a b => effectiveness a - effectiveness b)
                 (List.filter (fun p => 3 <=? usageOf p) byEffectiveness));
     libraryStats := libraryStats;
     totalPatterns := Z.of_nat (length byEffectiveness);
     averageEffectiveness :=
       if 0 <? Z.of_nat (length byEffectiveness)
       then Js.roundDiv (Js.sum (map effectiveness byEffectiveness))
              (Z.of_nat (length byEffectiveness))
       else 0 |}.


(** ** Pattern usage statistics: what is counted *)

(** The pattern occurrences of a record set, each with the status of
    its record, in the order in which the loops visit them. *)
Definition occurrencesOf (results : list ValidationResult) : list (string * Pattern) :=
  flat_map (fun r => map (fun p => (status r, p)) (patterns r)) results.

Definition countKey (key : string) (occ : list (string * Pattern)) : Z :=
  Z.of_nat (length (filter (fun o => patternKey o.2 = key) occ)).

Definition countKeyStatus (key status : string) (occ : list (string * Pattern)) : Z :=
  Z.of_nat (length (filter (fun o => patternKey o.2 = key /\ o.1 = status) occ)).

Definition recordOccurrence (stats : list PatternStat) (o : string * Pattern)
  : list PatternStat :=
  recordPattern o.1 o.2 stats.

Lemma recordResult_occurrences (stats : list PatternStat) (r : ValidationResult) :
  recordResult stats r
  = foldl recordOccurrence stats (map (fun p => (status r, p)) (patterns r)).
Proof.
  unfold recordResult. revert stats.
  induction (patterns r) as [|p ps IH]; intros stats; simpl; [reflexivity|].
  apply IH.
Qed.

Lemma patternStatsOf_occurrences (results : list ValidationResult) :
  patternStatsOf results = foldl recordOccurrence [] (occurrencesOf results).
Proof.
  unfold patternStatsOf, occurrencesOf. generalize (@nil PatternStat) as stats.
  induction results as [|r rs IH]; intros stats; simpl; [reflexivity|].
  rewrite foldl_app, <- recordResult_occurrences. apply IH.
Qed.

Lemma recordPattern_spec (status : string) (p : Pattern) (stats : list PatternStat) :
  (exists before st after,
      stats = before ++ st :: after
      /\ statName st = patternKey p
      /\ Forall (fun st' => statName st' <> patternKey p) before
      /\ recordPattern status p stats = before ++ bump status p st :: after)
  \/ (Forall (fun st' => statName st' <> patternKey p) stats
      /\ recordPattern status p stats = stats ++ [bump status p (newStat p)]).
Proof.
  induction stats as [|st rest IH]; simpl.
  - right. split; [constructor|reflexivity].
  - destruct (String.eqb_spec (statName st) (patternKey p)) as [Heq|Hne].
    + left. exists [], st, rest. repeat split; auto.
    + destruct IH as [(before & st' & after & -> & Hname & Hbefore & ->)|[Hall ->]].
      * left. exists (st :: before), st', after. repeat split; auto.
      * right. split; [constructor; assumption|reflexivity].
Qed.

Lemma countKey_snoc (key : string) (occ : list (string * Pattern)) (o : string * Pattern) :
  countKey key (occ ++ [o])
  = countKey key occ + (if decide (patternKey o.2 = key) then 1 else 0).
Proof.
  unfold countKey. rewrite filter_app, length_app, filter_cons, filter_nil.
  destruct (decide (patternKey o.2 = key)); simpl; lia.
Qed.

Lemma countKeyStatus_snoc (key status : string) (occ : list (string * Pattern))
    (o : string * Pattern) :
  countKeyStatus key status (occ ++ [o])
  = countKeyStatus key status occ
    + (if decide (patternKey o.2 = key) then oneIf o.1 status else 0).
Proof.
  unfold countKeyStatus, oneIf.
  rewrite filter_app, length_app, filter_cons, filter_nil.
  destruct (decide (patternKey o.2 = key /\ o.1 = status)) as [[Hk Hs]|Hn];
    destruct (decide (patternKey o.2 = key)); destruct (String.eqb_spec o.1 status);
    simpl; try lia; try tauto.
Qed.

(** The entry of a key counts the occurrences of the key, in all and
    by status of the record. *)
Definition countsOccurrences (occ : list (string * Pattern)) (st : PatternStat) : Prop :=
  usage st = countKey (statName st) occ
  /\ successes st = countKeyStatus (statName st) "success" occ
  /\ failures st = countKeyStatus (statName st) "failure" occ
  /\ statWarnings st = countKeyStatus (statName st) "warning" occ.

Definition statsInvariant (occ : list (string * Pattern)) (stats : list PatternStat)
  : Prop :=
  NoDup (map statName stats)
  /\ Forall (countsOccurrences occ) stats
  /\ Forall (fun o => patternKey o.2 ∈ map statName stats) occ
  /\ Forall (fun st => 0 < usage st) stats
  /\ Js.sum (map usage stats) = Z.of_nat (length occ).

Lemma countsOccurrences_other (occ : list (string * Pattern)) (o : string * Pattern)
    (st : PatternStat) :
  statName st <> patternKey o.2 ->
  countsOccurrences occ st -> countsOccurrences (occ ++ [o]) st.
Proof.
  intros Hne (Hu & Hs & Hf & Hw). unfold countsOccurrences.
  rewrite countKey_snoc, !countKeyStatus_snoc.
  destruct (decide (patternKey o.2 = statName st)); [congruence|]. lia.
Qed.

Lemma countsOccurrences_bump (occ : list (string * Pattern)) (o : string * Pattern)
    (st : PatternStat) :
  statName st = patternKey o.2 ->
  countsOccurrences occ st -> countsOccurrences (occ ++ [o]) (bump o.1 o.2 st).
Proof.
  intros Heq (Hu & Hs & Hf & Hw). unfold countsOccurrences. simpl.
  rewrite countKey_snoc, !countKeyStatus_snoc.
  destruct (decide (patternKey o.2 = statName st)); [|congruence]. lia.
Qed.

Lemma countKey_absent (key : string) (occ : list (string * Pattern))
    (names : list string) :
  Forall (fun o => patternKey o.2 ∈ names) occ -> key ∉ names ->
  countKey key occ = 0 /\ forall status, countKeyStatus key status occ = 0.
Proof.
  intros Hall Hkey. unfold countKey, countKeyStatus.
  induction Hall as [|o occ Ho _ [IH1 IH2]]; [split; reflexivity|].
  split; [|intros status; specialize (IH2 status)]; rewrite filter_cons.
  - destruct (decide (patternKey o.2 = key)); [congruence|exact IH1].
  - destruct (decide (patternKey o.2 = key /\ o.1 = status)) as [[? _]|_];
      [congruence|exact IH2].
Qed.

Lemma statsInvariant_step (occ : list (string * Pattern)) (stats : list PatternStat)
    (o : string * Pattern) :
  statsInvariant occ stats ->
  statsInvariant (occ ++ [o]) (recordOccurrence stats o).
Proof.
  intros (Hnd & Hcounts & Hkeys & Hpos & Hsum). unfold recordOccurrence.
  destruct (recordPattern_spec o.1 o.2 stats)
    as [(before & st & after & -> & Hname & Hbefore & ->)|[Habsent ->]].
  - rewrite map_app in Hnd. simpl in Hnd.
    apply NoDup_app in Hnd as (Hnd1 & Hdisj & Hnd2).
    apply NoDup_cons in Hnd2 as [Hst Hnd2].
    assert (Hafter : Forall (fun st' => statName st' <> patternKey o.2) after).
    { apply Forall_forall. intros st' Hin Heq. apply Hst. rewrite Hname, <- Heq.
      apply list_elem_of_fmap. exists st'. auto. }
    apply Forall_app in Hcounts as [Hc1 Hc2]. apply Forall_cons in Hc2 as [Hcst Hc2].
    apply Forall_app in Hpos as [Hp1 Hp2]. apply Forall_cons in Hp2 as [Hpst Hp2].
    assert (Hnames : map statName (before ++ bump o.1 o.2 st :: after)
                     = map statName (before ++ st :: after)).
    { rewrite !map_app. reflexivity. }
    split; [|split; [|split; [|split]]].
    + rewrite Hnames, map_app. simpl. apply NoDup_app. split; [exact Hnd1|].
      split; [exact Hdisj|]. apply NoDup_cons. auto.
    + apply Forall_app. split; [|apply Forall_cons; split].
      * eapply Forall_impl; [apply Forall_and; split; [exact Hbefore|exact Hc1]|].
        intros st' [Hne Hc]. simpl in *. apply countsOccurrences_other; assumption.
      * apply countsOccurrences_bump; assumption.
      * eapply Forall_impl; [apply Forall_and; split; [exact Hafter|exact Hc2]|].
        intros st' [Hne Hc]. simpl in *. apply countsOccurrences_other; assumption.
    + rewrite Hnames. apply Forall_app. split; [exact Hkeys|].
      repeat constructor. rewrite map_app. simpl. rewrite <- Hname.
      apply elem_of_app. right. left.
    + apply Forall_app. split; [exact Hp1|]. apply Forall_cons. split; [simpl; lia|exact Hp2].
    + rewrite map_app, sum_app in *. simpl map in *. rewrite sum_cons in *. simpl usage.
      rewrite length_app. simpl length. lia.
  - assert (Hnew : patternKey o.2 ∉ map statName stats).
    { intros Hin. apply list_elem_of_fmap in Hin as (st & Heq & Hin).
      rewrite Forall_forall in Habsent. apply (Habsent st Hin). auto. }
    destruct (countKey_absent _ occ _ Hkeys Hnew) as [Hzero Hzeros].
    split; [|split; [|split; [|split]]].
    + rewrite map_app. simpl. apply NoDup_app. split; [exact Hnd|]. split.
      * intros x Hx Hx'. apply list_elem_of_singleton in Hx'. subst x. contradiction.
      * apply NoDup_singleton.
    + apply Forall_app. split.
      * eapply Forall_impl; [apply Forall_and; split; [exact Habsent|exact Hcounts]|].
        intros st' [Hne Hc]. simpl in *. apply countsOccurrences_other; assumption.
      * repeat constructor; simpl; rewrite ?countKey_snoc, ?countKeyStatus_snoc;
          rewrite ?Hzero, ?Hzeros;
          destruct (decide (patternKey o.2 = patternKey o.2)); congruence || lia.
    + rewrite map_app. apply Forall_app. split.
      * eapply Forall_impl; [exact Hkeys|]. intros o' Ho'. simpl in *.
        apply elem_of_app. left. exact Ho'.
      * repeat constructor. apply elem_of_app. right. left.
    + apply Forall_app. split; [exact Hpos|]. repeat constructor; try (simpl; lia).
    + rewrite map_app, sum_app, length_app. simpl map. rewrite sum_cons. simpl.
      unfold Js.sum at 2. simpl. lia.
Qed.

Lemma patternStatsOf_invariant (results : list ValidationResult) :
  statsInvariant (occurrencesOf results) (patternStatsOf results).
Proof.
  rewrite patternStatsOf_occurrences.
  induction (occurrencesOf results) as [|o occ IH] using rev_ind.
  - unfold statsInvariant. simpl. repeat split; constructor.
  - rewrite foldl_app. simpl. apply statsInvariant_step, IH.
Qed.

Lemma countKeyStatus_three (key : string) (occ : list (string * Pattern)) :
  countKeyStatus key "success" occ + countKeyStatus key "failure" occ
  + countKeyStatus key "warning" occ <= countKey key occ.
Proof.
  unfold countKeyStatus, countKey.
  induction occ as [|o occ IH]; [simpl; lia|].
  rewrite !filter_cons.
  destruct (decide (patternKey o.2 = key)) as [Hk|Hk].
  - repeat (destruct (decide (_ /\ _)) as [[_ ?]|?]); simpl length; try lia;
      try congruence.
  - repeat (destruct (decide (_ /\ _)) as [[? _]|?]); try contradiction. exact IH.
Qed.

(** X22. The pattern statistics have one entry for every pattern key
    that occurs and no key twice; the entry of a key counts the
    occurrences of the key, in all and in the records of each status,
    so the three status counts never exceed the usage; and the usages
    add up to the number of pattern occurrences. *)
Theorem patternStats_count_occurrences (results : list ValidationResult) :
  let stats := patternStatsOf results in
  let occ := occurrencesOf results in
  NoDup (map statName stats)
  /\ (forall key, key ∈ map statName stats <-> exists o, o ∈ occ /\ patternKey o.2 = key)
  /\ Forall (fun st =>
               countsOccurrences occ st
               /\ 0 < usage st
               /\ 0 <= successes st /\ 0 <= failures st /\ 0 <= statWarnings st
               /\ successes st + failures st + statWarnings st <= usage st)
            stats
  /\ Js.sum (map usage stats) = Z.of_nat (length occ).
Proof.
  destruct (patternStatsOf_invariant results) as (Hnd & Hcounts & Hkeys & Hpos & Hsum).
  cbv zeta. split; [exact Hnd|]. split; [|split; [|exact Hsum]].
  - intros key. split.
    + intros Hin. apply list_elem_of_fmap in Hin as (st & -> & Hin).
      rewrite Forall_forall in Hcounts, Hpos.
      destruct (Hcounts st Hin) as (Hu & _). specialize (Hpos st Hin).
      rewrite Hu in Hpos. unfold countKey in Hpos.
      destruct (filter _ (occurrencesOf results)) as [|o os] eqn:Hf; [simpl in Hpos; lia|].
      assert (Ho : o ∈ filter (fun o => patternKey o.2 = statName st)
                     (occurrencesOf results)) by (rewrite Hf; left).
      apply list_elem_of_filter in Ho as [Hk Ho]. eauto.
    + intros (o & Ho & <-). rewrite Forall_forall in Hkeys. apply Hkeys, Ho.
  - eapply Forall_impl; [apply Forall_and; split; [exact Hcounts|exact Hpos]|].
    intros st [Hc Hp]. simpl in *. split; [exact Hc|]. split; [exact Hp|].
    destruct Hc as (Hu & Hs & Hf & Hw).
    pose proof (countKeyStatus_three (statName st) (occurrencesOf results)) as Hthree.
    rewrite Hs, Hf, Hw, Hu. unfold countKeyStatus, countKey in *. lia.
Qed.

(** ** Pattern rankings *)

(** Descending effectiveness, and descending usage among patterns of
    equal effectiveness. *)
Definition moreEffective (a b : PatternMetric) : Prop :=
  effectiveness b < effectiveness a
  \/ (effectiveness a = effectiveness b /\ usageOf b <= usageOf a).

(** Ascending effectiveness, and descending usage among patterns of
    equal effectiveness. *)
Definition lessEffective (a b : PatternMetric) : Prop :=
  effectiveness a < effectiveness b
  \/ (effectiveness a = effectiveness b /\ usageOf b <= usageOf a).

Definition metricsOf (results : list ValidationResult) : list PatternMetric :=
  map metricOf (patternStatsOf results).

Definition byUsageOf (results : list ValidationResult) : list PatternMetric :=
  Js.sortBy (fun a b => usageOf b - usageOf a) (metricsOf results).

Definition byEffectivenessOf (results : list ValidationResult) : list PatternMetric :=
  Js.sortBy (fun a b => effectiveness b - effectiveness a) (byUsageOf results).

Definition leastOf (results : list ValidationResult) : list PatternMetric :=
  Js.sortBy (fun a b => effectiveness a - effectiveness b)
    (List.filter (fun p => 3 <=? usageOf p) (byEffectivenessOf results)).

Lemma byUsageOf_sorted (results : list ValidationResult) :
  StronglySorted (fun a b => usageOf b <= usageOf a) (byUsageOf results).
Proof. apply (sortBy_descending usageOf). Qed.

Lemma byEffectivenessOf_sorted (results : list ValidationResult) :
  StronglySorted moreEffective (byEffectivenessOf results).
Proof.
  apply (sortBy_stable_descending effectiveness (fun a b => usageOf b <= usageOf a)).
  eapply StronglySorted_impl; [|apply byUsageOf_sorted]. auto.
Qed.

Lemma leastOf_sorted (results : list ValidationResult) :
  StronglySorted lessEffective (leastOf results).
Proof.
  apply (sortBy_stable effectiveness (fun a b => usageOf b <= usageOf a)).
  apply StronglySorted_filter.
  eapply StronglySorted_impl; [|apply byEffectivenessOf_sorted].
  intros a b [Hlt|[_ Hu]] Heq; [lia|exact Hu].
Qed.

(** X23. [patternUsage] holds at most 20 patterns in descending order
    of usage; [mostEffective] at most 10 in descending order of
    effectiveness; [leastEffective] at most 5, each used at least 3
    times, in ascending order of effectiveness; in the last two,
    patterns of equal effectiveness stand in descending order of
    usage, the order that the earlier sort of the same array left. *)
Theorem pattern_rankings_sorted (files : LibraryFiles)
    (results : list ValidationResult) :
  let m := calculatePatternMetrics files results in
  ((length (patternUsage m) <= 20)%nat
   /\ StronglySorted (fun a b => usageOf b <= usageOf a) (patternUsage m))
  /\ ((length (mostEffective m) <= 10)%nat
      /\ StronglySorted moreEffective (mostEffective m))
  /\ ((length (leastEffective m) <= 5)%nat
      /\ Forall (fun p => 3 <= usageOf p) (leastEffective m)
      /\ StronglySorted lessEffective (leastEffective m)).
Proof.
  unfold calculatePatternMetrics. simpl.
  fold (metricsOf results). fold (byUsageOf results). fold (byEffectivenessOf results).
  fold (leastOf results).
  split; [|split].
  - split; [rewrite length_take; lia|]. apply StronglySorted_take, byUsageOf_sorted.
  - split; [rewrite length_take; lia|].
    apply StronglySorted_take, byEffectivenessOf_sorted.
  - split; [rewrite length_take; lia|]. split.
    + apply Forall_take. unfold leastOf. rewrite sortBy_perm.
      apply Forall_forall. intros p Hp.
      apply list_elem_of_In, filter_In in Hp as [_ Hp]. apply Z.leb_le. exact Hp.
    + apply StronglySorted_take, leastOf_sorted.
Qed.

Lemma metricOf_range (occ : list (string * Pattern)) (st : PatternStat) :
  countsOccurrences occ st -> 0 < usage st ->
  0 <= patternSuccessRate (metricOf st) <= effectiveness (metricOf st)
  /\ effectiveness (metricOf st) <= 100.
Proof.
  intros (Hu & Hs & Hf & Hw) Hpos. unfold metricOf. simpl.
  destruct (Z.ltb_spec 0 (usage st)); [|lia].
  pose proof (countKeyStatus_three (statName st) occ) as Hthree.
  rewrite <- Hs, <- Hf, <- Hw, <- Hu in Hthree.
  assert (0 <= successes st /\ 0 <= failures st /\ 0 <= statWarnings st) as (? & ? & ?).
  { rewrite Hs, Hf, Hw. unfold countKeyStatus. lia. }
  pose proof (roundPercent_range (2 * successes st) (usage st)).
  pose proof (roundPercent_range (2 * successes st + statWarnings st) (usage st)).
  pose proof (roundPercent_mono (2 * successes st)
                (2 * successes st + statWarnings st) (usage st)).
  lia.
Qed.

Lemma metricsOf_range (results : list ValidationResult) :
  Forall (fun p => 0 <= patternSuccessRate p <= effectiveness p
                   /\ effectiveness p <= 100 /\ 0 < usageOf p)
         (metricsOf results).
Proof.
  destruct (patternStatsOf_invariant results) as (_ & Hcounts & _ & Hpos & _).
  unfold metricsOf. apply Forall_map.
  eapply Forall_impl; [apply Forall_and; split; [exact Hcounts|exact Hpos]|].
  intros st [Hc Hp]. simpl in *.
  destruct (metricOf_range _ st Hc Hp) as [Hr Hr']. auto.
Qed.

(** X24. Every pattern ranked is the metric of a pattern of the
    records, with a success rate and an effectiveness between 0 and
    100 and the success rate not above the effectiveness; a pattern
    left out of [patternUsage] is used no more than any pattern in
    it, one left out of [mostEffective] is no more effective than any
    pattern in it; the total is the number of distinct pattern keys
    and the average effectiveness lies between 0 and 100. *)
Theorem pattern_rankings_top (files : LibraryFiles) (results : list ValidationResult) :
  let m := calculatePatternMetrics files results in
  Forall (fun p => p ∈ metricsOf results
                   /\ 0 <= patternSuccessRate p <= effectiveness p
                   /\ effectiveness p <= 100)
    (patternUsage m ++ mostEffective m ++ leastEffective m)
  /\ (forall a b,
         a ∈ patternUsage m -> b ∈ metricsOf results -> b ∉ patternUsage m ->
         usageOf b <= usageOf a)
  /\ (forall a b,
         a ∈ mostEffective m -> b ∈ metricsOf results -> b ∉ mostEffective m ->
         effectiveness b <= effectiveness a)
  /\ totalPatterns m = Z.of_nat (length (patternStatsOf results))
  /\ 0 <= averageEffectiveness m <= 100.
Proof.
  unfold calculatePatternMetrics. simpl.
  fold (metricsOf results). fold (byUsageOf results). fold (byEffectivenessOf results).
  fold (leastOf results).
  pose proof (metricsOf_range results) as Hrange. rewrite Forall_forall in Hrange.
  assert (Hu : byUsageOf results ≡ₚ metricsOf results) by apply sortBy_perm.
  assert (He : byEffectivenessOf results ≡ₚ metricsOf results).
  { unfold byEffectivenessOf. rewrite sortBy_perm. exact Hu. }
  assert (Hmember : forall p, p ∈ metricsOf results ->
                      p ∈ metricsOf results
                      /\ 0 <= patternSuccessRate p <= effectiveness p
                      /\ effectiveness p <= 100).
  { intros p Hp. destruct (Hrange p Hp) as (? & ? & _). auto. }
  split; [|split; [|split; [|split]]].
  - apply Forall_forall. intros p Hp. apply Hmember.
    apply elem_of_app in Hp as [Hp|Hp]; [|apply elem_of_app in Hp as [Hp|Hp]].
    + rewrite <- Hu. eapply elem_of_take_list, Hp.
    + rewrite <- He. eapply elem_of_take_list, Hp.
    + apply elem_of_take_list in Hp.
      unfold leastOf in Hp. rewrite sortBy_perm in Hp.
      apply list_elem_of_In, filter_In in Hp as [Hp _].
      rewrite <- He. apply list_elem_of_In, Hp.
  - intros a b Ha Hb Hout. rewrite <- Hu in Hb.
    rewrite <- (take_drop 20 (byUsageOf results)) in Hb.
    apply elem_of_app in Hb as [Hb|Hb]; [contradiction|].
    apply (StronglySorted_take_drop _ 20 _ a b (byUsageOf_sorted results) Ha Hb).
  - intros a b Ha Hb Hout. rewrite <- He in Hb.
    rewrite <- (take_drop 10 (byEffectivenessOf results)) in Hb.
    apply elem_of_app in Hb as [Hb|Hb]; [contradiction|].
    pose proof (StronglySorted_take_drop _ 10 _ a b
                  (byEffectivenessOf_sorted results) Ha Hb) as Hab.
    unfold moreEffective in Hab. lia.
  - rewrite (Permutation_length He). unfold metricsOf. rewrite length_map. reflexivity.
  - destruct (Z.ltb_spec 0 (Z.of_nat (length (byEffectivenessOf results)))); [|lia].
    apply roundDiv_between; [assumption|].
    rewrite <- (length_map effectiveness). apply sum_between.
    apply Forall_map, Forall_forall. intros p Hp. rewrite He in Hp.
    destruct (Hrange p Hp) as (? & ? & _). simpl. lia.
Qed.

(** X25. With no pattern in any record, so also with no record, the
    rankings are empty, the total is 0 and the average effectiveness
    is 0. *)
Theorem pattern_metrics_without_patterns (files : LibraryFiles)
    (results : list ValidationResult) :
  Forall (fun r => patterns r = []) results ->
  let m := calculatePatternMetrics files results in
  patternUsage m = [] /\ mostEffective m = [] /\ leastEffective m = []
  /\ totalPatterns m = 0 /\ averageEffectiveness m = 0
  /\ libraryStats m = getPatternLibraryStats files.
Proof.
  intros Hnone.
  assert (Hstats : patternStatsOf results = []).
  { unfold patternStatsOf. induction Hnone as [|r rs Hr _ IH]; [reflexivity|].
    simpl. unfold recordResult at 2. rewrite Hr. simpl. exact IH. }
  unfold calculatePatternMetrics. rewrite Hstats. simpl. auto 10.
Qed.

(** ** The scope filter of the patterns endpoint *)






End PatternEffectiveness.

(** * Pattern library manager *)

(** ** Matching a pattern against test failures *)

(** [s.split(' ')]: the pieces of [s] between single spaces; the
    empty string gives one empty piece. *)
Fixpoint splitSpaces (s : string) : list string :=
  match s with
  | EmptyString => [EmptyString]
  | String c s' =>
      if Ascii.eqb c " " then EmptyString :: splitSpaces s'
      else match splitSpaces s' with
           | word :: words => String c word :: words
           | [] => [String c EmptyString]
           end
  end.

(** A test failure: its [error] and [message] texts, when it has them. *)
Record Failure := {
  failureError : option string;
  failureMessage : option string
}.

(** [(failure.error || failure.message || '').toLowerCase()] *)
Definition errorTextOf (failure : Failure) : string :=
  Js.toLowerCase
    (default "" (Js.orStr (Js.orStr (failureError failure) (failureMessage failure))
                   (Some ""))).

(** The message of the [TypeError] that [pattern.signature.toLowerCase()]
    throws for a pattern without signature. *)
Definition noSignatureMessage : string :=
  "Cannot read properties of undefined (reading 'toLowerCase')".

(** [_evaluatePattern(failures, pattern)]; [failures] is [None] when
    it is missing or not an array, [signature] is [pattern.signature]. *)
Definition evaluatePattern (failures : option (list Failure)) (signature : option string)
  : Outcome bool :=
  match failures with
  | None | Some [] => Returned false
  | Some failures =>
      match signature with
      | None => Thrown noSignatureMessage
      | Some signature =>
          let keywords := splitSpaces (Js.toLowerCase signature) in
          Returned
            (existsb (fun failure =>
                        existsb (fun keyword => Js.includes (errorTextOf failure) keyword)
                          keywords)
               failures)
      end
  end.

Lemma splitSpaces_nonempty (s : string) : splitSpaces s <> [].
Proof.
  induction s as [|c s IH]; simpl; [discriminate|].
  destruct (Ascii.eqb c " "); [discriminate|].
  destruct (splitSpaces s); discriminate.
Qed.

(** Splitting at a space: the pieces before it, then the pieces
    after it. *)
Lemma splitSpaces_app (a b : string) :
  splitSpaces (a +:+ String " " b) = splitSpaces a ++ splitSpaces b.
Proof.
  induction a as [|c a IH]; simpl; [reflexivity|].
  destruct (Ascii.eqb c " "); [rewrite IH; reflexivity|].
  rewrite IH. pose proof (splitSpaces_nonempty a).
  destruct (splitSpaces a); [congruence|reflexivity].
Qed.

Lemma toLowerCase_app (a b : string) :
  Js.toLowerCase (a +:+ b) = Js.toLowerCase a +:+ Js.toLowerCase b.
Proof. induction a as [|c a IH]; simpl; [reflexivity|]. rewrite IH. reflexivity. Qed.

Lemma includes_empty (s : string) : Js.includes s "" = true.
Proof. destruct s; reflexivity. Qed.

(** A signature with an empty word: the empty signature, one that
    starts or ends with a space, one with two spaces in a row. *)
Inductive hasEmptyWord : string -> Prop :=
| emptySignature : hasEmptyWord ""
| leadingSpace (rest : string) : hasEmptyWord (String " " rest)
| trailingSpace (start : string) : hasEmptyWord (start +:+ " ")
| doubleSpace (start rest : string) : hasEmptyWord (start +:+ String " " (String " " rest)).

Lemma hasEmptyWord_keyword (signature : string) :
  hasEmptyWord signature -> "" ∈ splitSpaces (Js.toLowerCase signature).
Proof.
  intros [|rest|start|start rest].
  - left.
  - simpl. left.
  - rewrite toLowerCase_app. change (Js.toLowerCase " ") with (String " " "").
    rewrite splitSpaces_app. apply elem_of_app. right. left.
  - rewrite toLowerCase_app. simpl.
    change (String (Js.lowerAscii " ") (String (Js.lowerAscii " ") (Js.toLowerCase rest)))
      with (String " " (String " " (Js.toLowerCase rest))).
    rewrite splitSpaces_app. apply elem_of_app. right. simpl. left.
Qed.

(** X27. A pattern whose signature has an empty word (it is empty,
    starts or ends with a space, or has two spaces in a row) matches
    every non-empty list of failures, whatever their texts; without
    failures it matches nothing. *)
Theorem evaluatePattern_empty_word (failures : list Failure) (signature : string) :
  hasEmptyWord signature ->
  failures <> [] ->
  evaluatePattern (Some failures) (Some signature) = Returned true
  /\ evaluatePattern (Some []) (Some signature) = Returned false
  /\ evaluatePattern None (Some signature) = Returned false.
Proof.
  intros Hword Hne. split; [|split; reflexivity]. unfold evaluatePattern.
  destruct failures as [|failure rest]; [congruence|]. f_equal.
  apply existsb_exists. exists failure. split; [left; reflexivity|].
  apply existsb_exists. exists "". split.
  - apply list_elem_of_In, hasEmptyWord_keyword, Hword.
  - apply includes_empty.
Qed.

(** ** Libraries in memory *)

Section Manager.

(** The data of one pattern is a JSON object that the manager stores
    and merges without looking into it: [spread old updates] is
    [{ ...old, ...updates }]. *)
Variable PatternData : Type.
Variable spread : PatternData -> PatternData -> PatternData.

(** A pattern library, as far as the manager reads or writes it.
    [libraryPatterns] is [None] for a library without [patterns]. *)
Record Library := {
  pattern_library_version : option string;
  total_patterns : option Z;
  last_updated : option Z;
  libraryPatterns : option (gmap string PatternData)
}.

(** [{ success, error }] *)
Record ManagerResult := {
  success : bool;
  resultError : option string
}.

Definition succeeded : ManagerResult := {| success := true; resultError := None |}.

Definition failedWith (message : string) : ManagerResult :=
  {| success := false; resultError := Some message |}.

(** The messages of the [TypeError]s for a library without [patterns]. *)
Definition cannotSetMessage (patternName : string) : string :=
  "Cannot set properties of undefined (setting '" +:+ patternName +:+ "')".


(** [getPatternsByScope]: [library ? library.patterns : {}] *)
Definition getPatternsByScope (patternLibraries : gmap string Library) (scope : string)
  : option (gmap string PatternData) :=
  match patternLibraries !! scope with
  | Some library => libraryPatterns library
  | None => Some ∅
  end.

(** [getTotalPatternCount]: the sum of [library.total_patterns || 0]. *)
Definition getTotalPatternCount (patternLibraries : gmap string Library) : Z :=
  map_fold (fun _ library total => total + default 0 (total_patterns library)) 0
    patternLibraries.

(** [addPattern(scope, patternName, patternData)] at the instant
    [now], with [written] the outcome of [fs.writeJson]: the result,
    the libraries in memory afterwards, and the library handed to
    [fs.writeJson], if the call gets that far.  The library object is
    changed in place before it is written. *)
Definition addPattern (patternLibraries : gmap string Library) (now : Z)
    (written : Outcome unit) (scope patternName : string) (patternData : PatternData)
  : ManagerResult * gmap string Library * option Library :=
  match patternLibraries !! scope with
  | None =>
      (failedWith ("Pattern library not found for scope: " +:+ scope), patternLibraries, None)
  | Some library =>
      match libraryPatterns library with
      | None => (failedWith (cannotSetMessage patternName), patternLibraries, None)
      | Some patterns =>
          let patterns' := <[patternName := patternData]> patterns in
          let library' :=
            {| pattern_library_version := pattern_library_version library;
               total_patterns := Some (Z.of_nat (size patterns'));
               last_updated := Some now;
               libraryPatterns := Some patterns' |} in
          let changed := <[scope := library']> patternLibraries in
          match written with
          | Returned _ => (succeeded, changed, Some library')
          | Thrown message => (failedWith message, changed, Some library')
          end
      end
  end.


(** X28. When the library of the scope is loaded and has patterns,
    [addPattern] puts the pattern into the library in memory, sets
    [total_patterns] to the number of patterns and leaves the other
    patterns and the other libraries alone, whether the write of the
    file succeeds or not; it reports success exactly when the write
    succeeds, so that after a failed write the memory holds a pattern
    that the file does not. *)
Theorem addPattern_in_memory (patternLibraries : gmap string Library) (now : Z)
    (written : Outcome unit) (scope patternName : string) (patternData : PatternData)
    (library : Library) (patterns : gmap string PatternData) :
  patternLibraries !! scope = Some library ->
  libraryPatterns library = Some patterns ->
  let outcome := addPattern patternLibraries now written scope patternName patternData in
  let result := outcome.1.1 in
  let after := outcome.1.2 in
  (exists patterns',
      getPatternsByScope after scope = Some patterns'
      /\ patterns' !! patternName = Some patternData
      /\ (forall other, other <> patternName -> patterns' !! other = patterns !! other)
      /\ (total_patterns <$> after !! scope) = Some (Some (Z.of_nat (size patterns'))))
  /\ (forall otherScope, otherScope <> scope ->
        after !! otherScope = patternLibraries !! otherScope)
  /\ (success result = true <-> exists u, written = Returned u).
Proof.
  intros Hlibrary Hpatterns. unfold addPattern. rewrite Hlibrary, Hpatterns.
  destruct written as [u|message]; cbv zeta; cbn [fst snd].
  all: split; [|split].
  all: try (intros otherScope Hother; apply lookup_insert_ne; congruence).
  all: try (eexists; unfold getPatternsByScope; rewrite lookup_insert_eq; simpl;
            split; [reflexivity|]; split; [apply lookup_insert_eq|];
            split; [|reflexivity];
            intros other Hother; apply lookup_insert_ne; congruence).
  - simpl. split; [intros _; exists u; reflexivity | reflexivity].
  - simpl. split; [discriminate|]. intros [u Hu]. discriminate Hu.
Qed.


Lemma getTotalPatternCount_insert (patternLibraries : gmap string Library)
    (scope : string) (library : Library) :
  getTotalPatternCount (<[scope := library]> patternLibraries)
  = getTotalPatternCount (delete scope patternLibraries)
    + default 0 (total_patterns library).
Proof.
  unfold getTotalPatternCount. rewrite <- insert_delete_eq.
  rewrite map_fold_insert_L; [reflexivity| |apply lookup_delete_eq].
  intros. lia.
Qed.

(** X30. After [addPattern] on a loaded library with patterns, the
    total pattern count counts that library by the number of its
    patterns, whatever [total_patterns] the library declared before,
    and the other libraries by what they declare. *)
Theorem addPattern_total_count (patternLibraries : gmap string Library) (now : Z)
    (written : Outcome unit) (scope patternName : string) (patternData : PatternData)
    (library : Library) (patterns : gmap string PatternData) :
  patternLibraries !! scope = Some library ->
  libraryPatterns library = Some patterns ->
  getTotalPatternCount
    (addPattern patternLibraries now written scope patternName patternData).1.2
  = getTotalPatternCount patternLibraries
    - default 0 (total_patterns library)
    + Z.of_nat (size (<[patternName := patternData]> patterns)).
Proof.
  intros Hlibrary Hpatterns. unfold addPattern. rewrite Hlibrary, Hpatterns.
  assert (Hbefore : getTotalPatternCount patternLibraries
                    = getTotalPatternCount (delete scope patternLibraries)
                      + default 0 (total_patterns library)).
  { rewrite <- (insert_id patternLibraries scope library Hlibrary) at 1.
    apply getTotalPatternCount_insert. }
  rewrite Hbefore.
  destruct written; cbn [fst snd]; rewrite getTotalPatternCount_insert; simpl; lia.
Qed.

End Manager.

(** * Concrete runs *)

(** The runs below use the rounding of the exact quotient. *)
#[export] Instance exactPercent : PercentRounding :=
  {| roundPercent := Js.roundPercent;
     roundPercent_nearest := exact_roundPercent_nearest |}.

(** ** Overview calculator *)

Lemma C7_quality_score_monotone_witness :
  let failing := {| project := None; timestamp := Some 1; status := "failure";
                    executionTime := None; testCount := None; totalTests := None;
                    patterns := [] |} in
  qualityScore (calculateOverviewMetrics 0 [failing]) = 0
  /\ qualityScore
       (calculateOverviewMetrics 0 (<[0%nat := withStatus "warning" failing]> [failing]))
     = 50
  /\ qualityScore (calculateOverviewMetrics 0 [failing])
     <= qualityScore
          (calculateOverviewMetrics 0 (<[0%nat := withStatus "warning" failing]> [failing])).
Proof.
  intros failing. split; [reflexivity|]. split; [reflexivity|].
  apply (C7_quality_score_monotone 0 [failing] 0%nat failing "warning").
  - reflexivity.
  - left. split; reflexivity.
Defined.

Lemma C6_rates_sum_within_one_witness :
  let ok := {| project := None; timestamp := Some 1; status := "success";
               executionTime := None; testCount := None; totalTests := None;
               patterns := [] |} in
  let rs := [ok; withStatus "failure" ok; withStatus "warning" ok] in
  99 <= successRate (calculateOverviewMetrics 0 rs)
        + failureRate (calculateOverviewMetrics 0 rs)
        + warningRate (calculateOverviewMetrics 0 rs) <= 101.
Proof.
  intros ok rs.
  apply (C6_rates_sum_within_one 0 rs).
  - discriminate.
  - repeat (constructor; [unfold knownStatus; simpl; auto|]). constructor.
Defined.

(** ** Comparative calculator *)

Example comparative_of_unreadableStore :
  calculateComparativeMetrics 0 unreadableStore [] (Some "alpha")
  = Returned zeroedComparative.
Proof. reflexivity. Qed.

(** A JSON file holding one record. *)
Definition jsonFile (name projectName statusName : string) (time : Z) : FileEntry :=
  {| fileName := name;
     readJson := Returned {| project := Some projectName; timestamp := Some time;
                             status := statusName; executionTime := None;
                             testCount := None; totalTests := None; patterns := [] |};
     statMtime := Returned time |}.

(** A store with four records of project alpha and five of project
    beta. *)
Definition twoProjectStore : Store :=
  {| ensureDir := Returned tt;
     readdir := Returned
       [ jsonFile "a1.json" "alpha" "success" 1000;
         jsonFile "a2.json" "alpha" "success" 2000;
         jsonFile "a3.json" "alpha" "success" 3000;
         jsonFile "a4.json" "alpha" "success" 4000;
         jsonFile "b1.json" "beta" "success" 1500;
         jsonFile "b2.json" "beta" "success" 2500;
         jsonFile "b3.json" "beta" "failure" 3500;
         jsonFile "b4.json" "beta" "success" 4500;
         jsonFile "b5.json" "beta" "success" 5500 ] |}.

(** C1. For the current project alpha, which has four records and so
    is not ranked, the rank returned is 0 and not [null]: beta is the
    only project in the sorted list, [findIndex] answers [-1] for
    alpha, and the source adds 1 to it.  For beta the rank is its
    1-based position, 1. *)
Theorem C1_unranked_project_has_rank_zero :
  (exists m,
      calculateComparativeMetrics 10000 twoProjectStore [] (Some "alpha") = Returned m
      /\ map cmpProject (projects m) = ["beta"]
      /\ totalProjects m = 1
      /\ currentProjectRank m = Some 0)
  /\ (exists m,
         calculateComparativeMetrics 10000 twoProjectStore [] (Some "beta") = Returned m
         /\ currentProjectRank m = Some 1).
Proof.
  split; eexists; (split; [vm_compute; reflexivity|]); repeat split.
Qed.

(** *** The orchestrator on concrete stores *)

(** A pattern calculator with nothing to report. *)
Definition noPatternMetrics (store : Store) (results : list ValidationResult) : unit := tt.

(** A readable store without files. *)
Definition emptyStore : Store :=
  {| ensureDir := Returned tt; readdir := Returned [] |}.

(** C3, as the specification words it, fails: on a store whose
    directory cannot be created the load throws instead of returning
    the empty sequence, and the snapshot computation throws too. *)
Lemma C3_counterexample :
  loadValidationResults unreadableStore None None = Thrown "EACCES: permission denied"
  /\ loadValidationResults unreadableStore None None <> Returned []
  /\ calculateQualityMetrics noPatternMetrics newMetricsService 0 unreadableStore None 30
     = (Thrown "Failed to calculate quality metrics: EACCES: permission denied",
        newMetricsService).
Proof.
  split; [reflexivity|]. split; [discriminate|]. vm_compute. reflexivity.
Qed.

Lemma C3_unreadable_store_raises_witness :
  (ensureDir unreadableStore = Thrown "EACCES: permission denied"
   \/ (ensureDir unreadableStore = Returned tt
       /\ readdir unreadableStore = Thrown "EACCES: permission denied"))
  /\ cachedSnapshot (@newMetricsService unit) 0 (cacheKeyOf None 30) = None
  /\ (forall cutoffDate,
         loadValidationResults unreadableStore None cutoffDate
         = Thrown "EACCES: permission denied")
  /\ calculateQualityMetrics noPatternMetrics newMetricsService 0 unreadableStore None 30
     = (Thrown ("Failed to calculate quality metrics: " +:+ "EACCES: permission denied"),
        newMetricsService).
Proof.
  assert (Hstore : ensureDir unreadableStore = Thrown "EACCES: permission denied"
                   \/ (ensureDir unreadableStore = Returned tt
                       /\ readdir unreadableStore = Thrown "EACCES: permission denied"))
    by (left; reflexivity).
  assert (Hmiss : cachedSnapshot (@newMetricsService unit) 0 (cacheKeyOf None 30) = None)
    by reflexivity.
  split; [exact Hstore|]. split; [exact Hmiss|].
  exact (C3_unreadable_store_raises noPatternMetrics newMetricsService 0 unreadableStore
           None 30 "EACCES: permission denied" Hstore Hmiss).
Defined.

(** The service after a first call at time 0 on the empty store. *)
Definition warmService : MetricsService unit :=
  (calculateQualityMetrics noPatternMetrics newMetricsService 0 emptyStore None 30).2.

(** C4, as the specification words it, fails at the edge of the
    window.  The entry stored at time 0 is exactly 300 000 ms old at
    time 300 000, yet the call at that time does not return the stored
    snapshot: it recomputes, returns a snapshot with the new time and
    replaces the entry.  And a recomputation whose load throws stores
    and returns nothing. *)
Lemma C4_counterexample :
  (exists entry,
      metricsCache warmService !! cacheKeyOf None 30 = Some entry
      /\ computedAt entry = 0
      /\ 300000 - computedAt entry <= 300000
      /\ (calculateQualityMetrics noPatternMetrics warmService 300000 emptyStore None 30).1
         <> Returned (data entry)
      /\ (calculateQualityMetrics noPatternMetrics warmService 300000 emptyStore None 30).2
         <> warmService)
  /\ calculateQualityMetrics noPatternMetrics newMetricsService 0 unreadableStore None 30
     = (Thrown "Failed to calculate quality metrics: EACCES: permission denied",
        newMetricsService).
Proof.
  split; [|vm_compute; reflexivity].
  eexists. split; [vm_compute; reflexivity|].
  split; [reflexivity|]. split; [simpl; lia|]. split.
  - intros Heq.
    apply (f_equal (fun o => match o with
                             | Returned s => snapshotTimestamp s
                             | Thrown _ => 0
                             end)) in Heq.
    vm_compute in Heq. discriminate Heq.
  - intros Heq.
    apply (f_equal (fun s => computedAt <$> (metricsCache s !! cacheKeyOf None 30))) in Heq.
    vm_compute in Heq. discriminate Heq.
Qed.

Lemma C4_cache_window_witness :
  cacheTimeout warmService = 300000
  /\ exists entry,
       metricsCache warmService !! cacheKeyOf None 30 = Some entry
       /\ 299999 - computedAt entry < 300000
       /\ calculateQualityMetrics noPatternMetrics warmService 299999 unreadableStore None 30
          = (Returned (data entry), warmService).
Proof.
  assert (Htimeout : cacheTimeout warmService = 300000) by reflexivity.
  split; [exact Htimeout|].
  eexists. split; [vm_compute; reflexivity|].
  split; [vm_compute; reflexivity|].
  apply (proj1 (C4_cache_window noPatternMetrics warmService 299999 unreadableStore
                  None 30 Htimeout)).
  - vm_compute. reflexivity.
  - vm_compute. reflexivity.
Defined.

(** ** Scenarios *)

Definition statusRecord (statusName : string) : ValidationResult :=
  {| project := Some "alpha"; timestamp := Some 5; status := statusName;
     executionTime := None; testCount := None; totalTests := None; patterns := [] |}.

(** Ten records, 7 successes, 2 warnings and 1 failure: success rate
    70 and quality score 80. *)
Example overview_seven_two_one :
  let m := calculateOverviewMetrics 10
             (replicate 7 (statusRecord "success") ++ replicate 2 (statusRecord "warning")
                ++ [statusRecord "failure"]) in
  successRate m = 70 /\ qualityScore m = 80 /\ totalValidations m = 10.
Proof. repeat split. Qed.

(** The default timeframe of 30 days gives 11 buckets of 3 days; a
    timeframe of 7 days gives 8 buckets of 1 day. *)
Example trend_buckets_default :
  length (calculateTrendMetrics 0 [] 30) = 11%nat
  /\ daysPerPeriodOf 30 = 3
  /\ length (calculateTrendMetrics 0 [] 7) = 8%nat
  /\ daysPerPeriodOf 7 = 1.
Proof. repeat split. Qed.

Example cache_keys :
  cacheKeyOf None 30 = "quality-global-30"
  /\ cacheKeyOf (Some "web") 7 = "quality-web-7".
Proof. split; reflexivity. Qed.

(** [clearCache] empties a populated cache. *)
Example clearCache_empties :
  size (metricsCache warmService) = 1%nat
  /\ size (metricsCache (clearCache warmService)) = 0%nat.
Proof. split; reflexivity. Qed.

(** ** Runs of the further properties *)

Lemma overview_order_independent_witness :
  let a := statusRecord "success" in
  let b := statusRecord "failure" in
  [a; b] ≡ₚ [b; a]
  /\ qualityScore (calculateOverviewMetrics 0 [a; b])
     = qualityScore (calculateOverviewMetrics 5 [b; a]).
Proof.
  intros a b.
  assert (Hp : [a; b] ≡ₚ [b; a]) by apply Permutation_swap.
  split; [exact Hp|].
  exact (proj1 (proj2 (proj2 (proj2 (proj2 (overview_order_independent 0 5 _ _ Hp)))))).
Defined.

Lemma calculateTrend_stable_when_sparse_witness :
  (length [statusRecord "success"] < 10)%nat
  /\ calculateTrend 0 [statusRecord "success"] 7 = stable.
Proof.
  assert (Hfew : (length [statusRecord "success"] < 10)%nat) by (simpl; lia).
  split; [exact Hfew|].
  apply (calculateTrend_stable_when_sparse 0 [statusRecord "success"] 7).
  left. exact Hfew.
Defined.

(** Five failures 8 days ago and five successes 6.5 days ago, seen
    10 days after the epoch. *)
Definition recordAt (statusName : string) (time : Z) : ValidationResult :=
  {| project := Some "alpha"; timestamp := Some time; status := statusName;
     executionTime := None; testCount := None; totalTests := None; patterns := [] |}.

Definition recoveringResults : list ValidationResult :=
  replicate 5 (recordAt "failure" (2 * msPerDay))
  ++ replicate 5 (recordAt "success" (3 * msPerDay + msPerDay / 2)).

Lemma trend_buckets_one_unstable_witness :
  exists p,
    calculateTrendMetrics (10 * msPerDay) recoveringResults 30 !! 8%nat = Some p
    /\ trend (periodMetrics p) = improving
    /\ 8%nat = 8%nat.
Proof.
  eexists. split; [vm_compute; reflexivity|]. split; [vm_compute; reflexivity|].
  eapply (trend_buckets_one_unstable (10 * msPerDay) recoveringResults 30 8 8).
  - vm_compute. reflexivity.
  - vm_compute. reflexivity.
  - vm_compute. discriminate.
  - vm_compute. discriminate.
Defined.

Lemma trend_buckets_cover_witness :
  0 <= 25
  /\ Js.sum (map (fun point => totalValidations (periodMetrics point))
               (calculateTrendMetrics (100 * msPerDay)
                  [recordAt "success" (100 * msPerDay - 1000)] 25))
     = 0.
Proof.
  assert (Htf : 0 <= 25) by lia.
  split; [exact Htf|].
  rewrite (trend_buckets_cover (100 * msPerDay)
             [recordAt "success" (100 * msPerDay - 1000)] 25 Htf).
  vm_compute. reflexivity.
Defined.

Lemma health_recommendations_witness :
  [statusRecord "failure"] <> []
  /\ lastUpdate (calculateHealthMetrics 7 [statusRecord "failure"]) = Some 7.
Proof.
  assert (Hne : [statusRecord "failure"] <> []) by discriminate.
  split; [exact Hne|].
  exact (proj2 (proj2 (health_recommendations 7 [statusRecord "failure"] Hne))).
Defined.


Lemma load_returns_filtered_witness :
  exists results,
    loadValidationResults twoProjectStore (Some "ALPHA") (Some 1500) = Returned results
    /\ length results = 3%nat
    /\ Forall (passesFilters (Some "ALPHA") (Some 1500)) results.
Proof.
  eexists. split; [vm_compute; reflexivity|]. split; [reflexivity|].
  refine (proj1 (load_returns_filtered twoProjectStore (Some "ALPHA") (Some 1500) _ _)).
  vm_compute. reflexivity.
Defined.


Definition brokenFile : FileEntry :=
  {| fileName := "broken.json"; readJson := Thrown "Unexpected end of JSON input";
     statMtime := Returned 5 |}.

Lemma load_skips_unreadable_witness :
  skippedFile brokenFile
  /\ loadValidationResults
       {| ensureDir := Returned tt;
          readdir := Returned ([jsonFile "a1.json" "alpha" "success" 1000]
                               ++ brokenFile :: [jsonFile "b1.json" "beta" "failure" 500]) |}
       None None
     = loadValidationResults
         {| ensureDir := Returned tt;
            readdir := Returned ([jsonFile "a1.json" "alpha" "success" 1000]
                                 ++ [jsonFile "b1.json" "beta" "failure" 500]) |}
         None None.
Proof.
  assert (Hskip : skippedFile brokenFile).
  { right. left. eexists. reflexivity. }
  split; [exact Hskip|].
  exact (load_skips_unreadable _ _ brokenFile None None Hskip).
Defined.

Lemma comparative_industry_average_witness :
  exists allResults m,
    loadValidationResults twoProjectStore None None = Returned allResults
    /\ calculateComparativeMetrics 10000 twoProjectStore [] (Some "beta") = Returned m
    /\ 0 <= avgQualityScore (industryAverage m) <= 100.
Proof.
  eexists.
  eassert (Hload : loadValidationResults twoProjectStore None None = Returned _)
    by (vm_compute; reflexivity).
  destruct (comparative_industry_average 10000 twoProjectStore [] _ (Some "beta") Hload)
    as (m & Hm & _ & _ & _ & _ & Hq & _).
  exists m. split; [exact Hload|]. split; [exact Hm | exact Hq].
Defined.

Lemma cacheKeyOf_injective_witness :
  0 <= 30
  /\ cacheKeyOf None 30 = cacheKeyOf (Some "global") 30
  /\ scopeOf None = scopeOf (Some "global").
Proof.
  assert (Htf : 0 <= 30) by lia.
  assert (Hkey : cacheKeyOf None 30 = cacheKeyOf (Some "global") 30) by reflexivity.
  split; [exact Htf|]. split; [exact Hkey|].
  exact (proj1 (cacheKeyOf_injective None (Some "global") 30 30 Htf Htf Hkey)).
Defined.

Lemma calculateQualityMetrics_other_keys_witness :
  cacheKeyOf None 30 <> cacheKeyOf (Some "web") 7
  /\ metricsCache
       (calculateQualityMetrics noPatternMetrics warmService 50 emptyStore (Some "web") 7).2
       !! cacheKeyOf None 30
     = metricsCache warmService !! cacheKeyOf None 30.
Proof.
  assert (Hother : cacheKeyOf None 30 <> cacheKeyOf (Some "web") 7).
  { intros Heq. vm_compute in Heq. discriminate Heq. }
  split; [exact Hother|].
  exact (proj1 (calculateQualityMetrics_other_keys noPatternMetrics warmService 50
                  emptyStore (Some "web") 7 _ Hother)).
Defined.

Lemma global_scope_shared_witness :
  exists metrics,
    calculateQualityMetrics noPatternMetrics newMetricsService 0 emptyStore None 30
    = (Returned metrics, warmService)
    /\ snapshotProject metrics = None
    /\ calculateQualityMetrics noPatternMetrics warmService 1000 twoProjectStore
         (Some "global") 30
       = (Returned metrics, warmService).
Proof.
  eexists. split; [vm_compute; reflexivity|]. split; [reflexivity|].
  edestruct (global_scope_shared noPatternMetrics newMetricsService warmService 0
               emptyStore 30) as (entry & Hlook & Hdata & Hserve).
  - reflexivity.
  - vm_compute. reflexivity.
  - apply Hserve; [left; reflexivity|].
    vm_compute in Hlook. injection Hlook as <-. vm_compute. reflexivity.
Defined.

(** No library file exists; confidences are left out. *)
Definition missingLibrary : LibraryFile :=
  {| pathExists := false; readLibrary := Thrown "ENOENT" |}.

Definition noLibraries : LibraryFiles :=
  {| universalFile := missingLibrary; backendFile := missingLibrary;
     frontendFile := missingLibrary |}.

Definition noConfidence (p : Pattern) : unit := tt.

Definition noAverage (old : unit) (n : Z) (sample : unit) : unit := tt.


Lemma pattern_metrics_without_patterns_witness :
  Forall (fun r => patterns r = []) [statusRecord "success"; statusRecord "failure"]
  /\ totalPatterns _ (calculatePatternMetrics unit noConfidence noAverage noLibraries
                        [statusRecord "success"; statusRecord "failure"]) = 0.
Proof.
  assert (Hnone : Forall (fun r => patterns r = [])
                    [statusRecord "success"; statusRecord "failure"]).
  { repeat constructor. }
  split; [exact Hnone|].
  exact (proj1 (proj2 (proj2 (proj2
           (pattern_metrics_without_patterns unit noConfidence noAverage noLibraries
              _ Hnone))))).
Defined.


Lemma evaluatePattern_empty_word_witness :
  let failures := [ {| failureError := Some "disk full"; failureMessage := None |} ] in
  hasEmptyWord "connection  refused"
  /\ failures <> []
  /\ evaluatePattern (Some failures) (Some "connection  refused") = Returned true.
Proof.
  intros failures.
  assert (Hword : hasEmptyWord "connection  refused")
    by exact (doubleSpace "connection" "refused").
  assert (Hne : failures <> []) by discriminate.
  split; [exact Hword|]. split; [exact Hne|].
  exact (proj1 (evaluatePattern_empty_word failures "connection  refused" Hword Hne)).
Defined.


Definition backendLibrary : Library (gmap string string) :=
  {| pattern_library_version := Some "1.0.0";
     total_patterns := Some 1;
     last_updated := None;
     libraryPatterns :=
       Some {[ "retry" := {[ "severity" := "low"; "fix" := "retry the call" ]} ]} |}.

Definition loadedLibraries : gmap string (Library (gmap string string)) :=
  {[ "backend" := backendLibrary ]}.

Lemma addPattern_in_memory_witness :
  exists patterns',
    getPatternsByScope _
      (addPattern _ loadedLibraries 7 (Thrown "EROFS: read-only file system") "backend"
         "null-check" {[ "severity" := "high" ]}).1.2 "backend"
    = Some patterns'
    /\ patterns' !! "null-check" = Some {[ "severity" := "high" ]}.
Proof.
  destruct (addPattern_in_memory _ loadedLibraries 7
              (Thrown "EROFS: read-only file system") "backend" "null-check"
              {[ "severity" := "high" ]} backendLibrary _ eq_refl eq_refl)
    as ((patterns' & Hget & Hnew & _) & _).
  exists patterns'. split; [exact Hget | exact Hnew].
Defined.


Lemma addPattern_total_count_witness :
  getTotalPatternCount _
    (addPattern _ loadedLibraries 7 (Returned tt) "backend" "null-check"
       {[ "severity" := "high" ]}).1.2
  = 2.
Proof.
  rewrite (addPattern_total_count _ loadedLibraries 7 (Returned tt) "backend" "null-check"
             {[ "severity" := "high" ]} backendLibrary _ eq_refl eq_refl).
  vm_compute. reflexivity.
Defined.
